(** * esbuild-node-tsc: build-metadata resolution and build orchestration

    A shallow embedding of [src/index.ts].  The pure configuration
    resolver ([esBuildSourceMapOptions], [getBuildMetadata]) is embedded as
    Rocq functions over records that mirror the TypeScript objects, with
    JavaScript truthiness and the [||] / [?.] operators written out.  The
    orchestration code ([normalBuild], [watchBuild], ...) is embedded as
    programs over the external calls it performs. *)

From Stdlib Require Import Ascii String List Bool Arith Lia.
From ExtLib Require Import Structures.Monad Data.Monads.EitherMonad.
Import ListNotations.
Import MonadNotation.
Local Open Scope string_scope.
Local Open Scope list_scope.
Local Open Scope monad_scope.

(** ** JavaScript values as the code uses them *)

Module JS.

(** Truthiness of the JavaScript values that occur in the code.  A value
    that may be [undefined] is an [option]; [undefined] is falsy. *)
Class Truthy (A : Type) := truthy : A -> bool.

#[export] Instance Truthy_bool : Truthy bool := fun b => b.
(** The empty string is the only falsy string. *)
#[export] Instance Truthy_string : Truthy string :=
  fun s => negb (String.eqb s "").
(** Arrays are objects: even the empty array is truthy. *)
#[export] Instance Truthy_list {A} : Truthy (list A) := fun _ => true.
#[export] Instance Truthy_option {A} `{Truthy A} : Truthy (option A) :=
  fun o => match o with Some a => truthy a | None => false end.

(** [a || b] where both operands may be [undefined]. *)
Definition or {A} `{Truthy A} (a b : option A) : option A :=
  if truthy a then a else b.

(** [a || d] where [d] is a literal, so that the result is defined. *)
Definition or_lit {A} `{Truthy A} (a : option A) (d : A) : A :=
  match a with
  | Some x => if truthy x then x else d
  | None => d
  end.

(** [o?.f]: member access that yields [undefined] on [undefined]. *)
Definition opt_chain {A B} (o : option A) (f : A -> option B) : option B :=
  match o with Some a => f a | None => None end.

(** An [Error] object, identified by its message. *)
Definition Error := string.

End JS.

Import JS.

Declare Scope js_scope.
Notation "a '||' b" := (JS.or a b) (at level 50, left associativity) : js_scope.
Notation "a '||!' d" := (JS.or_lit a d) (at level 50, left associativity) : js_scope.
Notation "o '?.' f" := (JS.opt_chain o f) (at level 40, left associativity) : js_scope.
Delimit Scope js_scope with js.

(** ** Data model *)

(** [tsConfig.options]: the compiler options the code reads. *)
Record CompilerOptions := {
  sourceMap : option bool;
  inlineSources : option bool;
  inlineSourceMap : option bool;
  co_outDir : option string
}.

(** [tsConfig.raw]: the untouched JSON of the configuration file; the code
    reads only [raw.compilerOptions.target], a string when present. *)
Record RawCompilerOptions := { raw_target : option string }.
Record RawConfig := { compilerOptions : option RawCompilerOptions }.

(** [TSConfig], the result of [ts.parseJsonConfigFileContent]. *)
Record TSConfig := {
  options : CompilerOptions;
  fileNames : list string;
  raw : option RawConfig
}.

(** The value the code hands to esbuild as [sourcemap]:
    [false | "inline" | boolean | undefined]. *)
Inductive SourceMap :=
| SmUndefined
| SmBool (b : bool)
| SmInline.

(** A [boolean | undefined] compiler flag passed through unchanged. *)
Definition passthrough (v : option bool) : SourceMap :=
  match v with Some b => SmBool b | None => SmUndefined end.

Section Resolver.

(** esbuild plugins and parsed JSON are opaque to this code. *)
Context {Plugin Json : Type}.

(** Modelled from the spec: the [Config] type is declared in [./config],
    which is not among the sources.  The spec's UserConfig has the optional
    fields [outDir], [tsConfigFile], [watch], an [esbuild] sub-object with
    optional [entryPoints], [target], [minify], [plugins], and an [assets]
    sub-object with optional [baseDir] and [filePatterns]. *)
Record EsbuildConfig := {
  entryPoints : option (list string);
  target : option string;
  minify : option bool;
  plugins : option (list Plugin)
}.

Record AssetsConfig := {
  baseDir : option string;
  filePatterns : option (list string)
}.

Record Config := {
  outDir : option string;
  tsConfigFile : option string;
  watch : option bool;
  esbuild : option EsbuildConfig;
  assets : option AssetsConfig
}.

(** The object literal [esbuildOptions] built by [getBuildMetadata]. *)
Record BuildOptions := {
  bo_outdir : string;
  bo_entryPoints : list string;
  bo_sourcemap : SourceMap;
  bo_target : string;
  bo_minify : bool;
  bo_plugins : list Plugin;
  bo_tsconfig : string
}.

(** [type AssetsOptions = { baseDir; outDir; patterns }]. *)
Record AssetsOptions := {
  ao_baseDir : string;
  ao_outDir : string;
  ao_patterns : list string
}.

(** The object returned by [getBuildMetadata]. *)
Record BuildMetadata := {
  bm_outDir : string;
  esbuildOptions : BuildOptions;
  assetsOptions : AssetsOptions
}.

(** The parts of the TypeScript compiler API and of the process state that
    [getTSConfig] consults: [process.cwd()], [ts.findConfigFile] given the
    directory and the file name, [ts.readConfigFile] up to the [config] field
    of its result, and [ts.parseJsonConfigFileContent] given that content and
    the base path. *)
Record TsHost := {
  cwd : string;
  findConfigFile : string -> string -> option string;
  readConfigFile : string -> Json;
  parseJsonConfigFileContent : Json -> string -> TSConfig
}.

Definition not_found_message (dir : string) : string :=
  "tsconfig.json not found in the current directory! " ++ dir.

(** [getTSConfig(_tsConfigFile = "tsconfig.json")].  The default applies
    when the argument is [undefined]; the function throws when the lookup
    yields a falsy value. *)
Definition getTSConfig (ts : TsHost) (_tsConfigFile : option string)
  : JS.Error + (TSConfig * string) :=
  let name := match _tsConfigFile with Some n => n | None => "tsconfig.json" end in
  let tsConfigFile := findConfigFile ts (cwd ts) name in
  match tsConfigFile with
  | Some f =>
      if truthy f then
        let configFile := readConfigFile ts f in
        let tsConfig := parseJsonConfigFileContent ts configFile (cwd ts) in
        inr (tsConfig, f)
      else inl (not_found_message (cwd ts))
  | None => inl (not_found_message (cwd ts))
  end.

(** The configuration file that [getTSConfig] looks for is found at the
    non-empty path [f]. *)
Definition located (ts : TsHost) (_tsConfigFile : option string) (f : string) : Prop :=
  findConfigFile ts (cwd ts)
    (match _tsConfigFile with Some n => n | None => "tsconfig.json" end) = Some f
  /\ truthy f = true.

(** What the compiler API makes of the file at [f]. *)
Definition parsed (ts : TsHost) (f : string) : TSConfig :=
  parseJsonConfigFileContent ts (readConfigFile ts f) (cwd ts).

(** [esBuildSourceMapOptions(tsConfig)]. *)
Definition esBuildSourceMapOptions (tsConfig : TSConfig) : SourceMap :=
  let sourceMap := sourceMap (options tsConfig) in
  let inlineSources := inlineSources (options tsConfig) in
  let inlineSourceMap := inlineSourceMap (options tsConfig) in
  if truthy inlineSources && negb (truthy inlineSourceMap) && negb (truthy sourceMap)
  then SmBool false
  else if truthy sourceMap && truthy inlineSourceMap
  then SmBool false
  else if truthy inlineSourceMap
  then SmInline
  else passthrough sourceMap.

(** The pattern appended to every asset pattern list. *)
Definition source_exclusion : string := "!**/*.{ts,js,tsx,jsx}".

(** [getBuildMetadata(userConfig)]. *)
Definition getBuildMetadata (ts : TsHost) (userConfig : Config)
  : JS.Error + BuildMetadata :=
  '(tsConfig, tsConfigFile) <- getTSConfig ts (tsConfigFile userConfig) ;;
  let outDir := (outDir userConfig || co_outDir (options tsConfig) ||! "dist")%js in
  let esbuildEntryPoints := (esbuild userConfig ?. entryPoints ||! [])%js in
  let srcFiles := fileNames tsConfig ++ esbuildEntryPoints in
  let sourcemap := esBuildSourceMapOptions tsConfig in
  let target :=
    (esbuild userConfig ?. target
     || raw tsConfig ?. compilerOptions ?. raw_target
     ||! "es6")%js in
  let minify := (esbuild userConfig ?. minify ||! false)%js in
  let plugins := (esbuild userConfig ?. plugins ||! [])%js in
  let esbuildOptions := {|
    bo_outdir := outDir;
    bo_entryPoints := srcFiles;
    bo_sourcemap := sourcemap;
    bo_target := target;
    bo_minify := minify;
    bo_plugins := plugins;
    bo_tsconfig := tsConfigFile
  |} in
  let assetPatterns := (assets userConfig ?. filePatterns ||! ["**"])%js in
  let assetsOptions := {|
    ao_baseDir := (assets userConfig ?. baseDir ||! "src")%js;
    ao_outDir := outDir;
    ao_patterns := assetPatterns ++ [source_exclusion]
  |} in
  ret {| bm_outDir := outDir;
         esbuildOptions := esbuildOptions;
         assetsOptions := assetsOptions |}.

End Resolver.

(** ** Asynchronous programs

    The orchestration functions are [async] functions over external
    services.  They are embedded as terms of a free monad: a program either
    returns, performs an external call, calls another [async] function
    (obtaining its promise), awaits a promise, or registers a listener. *)

(** A promise is described by the instant at which it settles and by how:
    [inl e] is a rejection with [e], [inr a] a fulfilment with [a].  Programs
    only ever pass promises around and await them. *)
Record Promise (A : Type) := {
  settles_at : nat;
  outcome : JS.Error + A
}.
Arguments settles_at {A} _.
Arguments outcome {A} _.

(** [Promise.all([pa, pb])]: fulfilled with both values once both are
    fulfilled; rejected as soon as one of them is rejected, with that
    rejection's error.  When both are rejected the earlier rejection wins,
    the first of the array at equal instants. *)
Definition Promise_all {A B} (pa : Promise A) (pb : Promise B) : Promise (A * B) :=
  match outcome pa, outcome pb with
  | inr a, inr b =>
      {| settles_at := Nat.max (settles_at pa) (settles_at pb); outcome := inr (a, b) |}
  | inl e, inr _ => {| settles_at := settles_at pa; outcome := inl e |}
  | inr _, inl e => {| settles_at := settles_at pb; outcome := inl e |}
  | inl ea, inl eb =>
      if (settles_at pa <=? settles_at pb)%nat
      then {| settles_at := settles_at pa; outcome := inl ea |}
      else {| settles_at := settles_at pb; outcome := inl eb |}
  end.

(** A chokidar watcher, identified by its creation index. *)
Definition Watcher := nat.

(** What [console.log] is given. *)
Inductive LogValue :=
| LogIgnored (ignored : string)
| LogParams (params : list string).

Section Orchestration.

Context {Plugin BuildResult : Type}.

(** The argument of esbuild's [build]: the resolved options spread into
    an object literal with the fixed fields. *)
Record BuildCall := {
  bc_options : @BuildOptions Plugin;
  bc_bundle : bool;
  bc_format : string;
  bc_platform : string;
  bc_incremental : option bool
}.

(** The arguments of [cpy(patterns, destination, { cwd, parents })]. *)
Record CpyCall := {
  cpy_patterns : list string;
  cpy_destination : string;
  cpy_cwd : string;
  cpy_parents : bool
}.

(** The arguments of chokidar's [watch(paths, { ignored })]. *)
Record WatchCall := {
  w_paths : list string;
  w_ignored : string
}.

(** External calls.  The index is the type of the value returned to the
    caller; the asynchronous services return a promise at once. *)
Inductive Cmd : Type -> Type :=
| RimrafSync (dir : string) : Cmd unit
| ConsoleTime (label : string) : Cmd unit
| ConsoleTimeEnd (label : string) : Cmd unit
| ConsoleLog (v : LogValue) : Cmd unit
| PathRelative (from to : string) : Cmd string
| Build (c : BuildCall) : Cmd (Promise BuildResult)
| Rebuild (builder : BuildResult) : Cmd (Promise BuildResult)
| Cpy (c : CpyCall) : Cmd (Promise (list string))
| Watch (c : WatchCall) : Cmd Watcher.

Inductive Prog : Type -> Type :=
| Ret {R} (r : R) : Prog R
| Vis {X R} (c : Cmd X) (k : X -> Prog R) : Prog R
| Async {A R} (callee : Prog A) (k : Promise A -> Prog R) : Prog R
| Await {A R} (p : Promise A) (k : A -> Prog R) : Prog R
| On {R} (w : Watcher) (event : string) (listener : list string -> Prog unit)
     (k : Prog R) : Prog R.

Fixpoint bind {A B} (p : Prog A) : (A -> Prog B) -> Prog B :=
  match p in Prog T return (T -> Prog B) -> Prog B with
  | Ret r => fun f => f r
  | Vis c k => fun f => Vis c (fun x => bind (k x) f)
  | Async callee k => fun f => Async callee (fun pr => bind (k pr) f)
  | Await pr k => fun f => Await pr (fun a => bind (k a) f)
  | On w ev l k => fun f => On w ev l (bind k f)
  end.

#[export] Instance Monad_Prog : Monad Prog :=
  {| ret := @Ret; Monad.bind := @bind |}.

Definition call {X} (c : Cmd X) : Prog X := Vis c Ret.
(** [await p] *)
Definition await {A} (p : Promise A) : Prog A := Await p Ret.
(** [f(args)] for an [async] function [f]: its body runs up to its first
    suspension and the caller receives a promise for its completion. *)
Definition async {A} (callee : Prog A) : Prog (Promise A) := Async callee Ret.
(** [w.on(event, listener)] *)
Definition on (w : Watcher) (event : string) (listener : list string -> Prog unit)
  : Prog unit := On w event listener (Ret tt).

(** *** The orchestration functions of [src/index.ts] *)

(** [{ ...esbuildOptions, bundle: false, format: "cjs", platform: "node" }],
    with [incremental] as the caller sets it. *)
Definition build_call (esbuildOptions : @BuildOptions Plugin)
  (incremental : option bool) : BuildCall :=
  {| bc_options := esbuildOptions;
     bc_bundle := false;
     bc_format := "cjs";
     bc_platform := "node";
     bc_incremental := incremental |}.

(** [buildSourceFiles(esbuildOptions)] *)
Definition buildSourceFiles (esbuildOptions : @BuildOptions Plugin)
  : Prog BuildResult :=
  p <- call (Build (build_call esbuildOptions None)) ;;
  await p.

(** [copyNonSourceFiles({ baseDir, outDir, patterns })] *)
Definition copyNonSourceFiles (assetsOptions : AssetsOptions)
  : Prog (list string) :=
  let baseDir := ao_baseDir assetsOptions in
  let outDir := ao_outDir assetsOptions in
  let patterns := ao_patterns assetsOptions in
  relativeOutDir <- call (PathRelative baseDir outDir) ;;
  p <- call (Cpy {| cpy_patterns := patterns;
                    cpy_destination := relativeOutDir;
                    cpy_cwd := baseDir;
                    cpy_parents := true |}) ;;
  await p.

(** [normalBuild(outDir, esbuildOptions, assetsOptions)] *)
Definition normalBuild (outDir : string) (esbuildOptions : @BuildOptions Plugin)
  (assetsOptions : AssetsOptions) : Prog (BuildResult * list string) :=
  call (RimrafSync outDir) ;;
  p1 <- async (buildSourceFiles esbuildOptions) ;;
  p2 <- async (copyNonSourceFiles assetsOptions) ;;
  await (Promise_all p1 p2).

(** The listener registered on the asset watcher. *)
Definition assetListener (assetsOptions : AssetsOptions)
  (params : list string) : Prog unit :=
  call (ConsoleLog (LogParams params)) ;;
  call (ConsoleTime "Assets copied in") ;;
  p <- async (copyNonSourceFiles assetsOptions) ;;
  await p ;;
  call (ConsoleTimeEnd "Assets copied in").

(** The listener registered on the code watcher. *)
Definition codeListener (builder : BuildResult) (params : list string)
  : Prog unit :=
  call (ConsoleLog (LogParams params)) ;;
  call (ConsoleTime "Rebuilt in") ;;
  p <- call (Rebuild builder) ;;
  await p ;;
  call (ConsoleTimeEnd "Rebuilt in").

(** [watchBuild(outDir, esbuildOptions, assetsOptions)] *)
Definition watchBuild (outDir : string) (esbuildOptions : @BuildOptions Plugin)
  (assetsOptions : AssetsOptions) : Prog unit :=
  call (RimrafSync outDir) ;;
  call (ConsoleTime "Initial build in") ;;
  pb <- call (Build (build_call esbuildOptions (Some true))) ;;
  builder <- await pb ;;
  call (ConsoleTimeEnd "Initial build in") ;;
  call (ConsoleTime "Initial assets copied in") ;;
  pc <- async (copyNonSourceFiles assetsOptions) ;;
  await pc ;;
  call (ConsoleTimeEnd "Initial assets copied in") ;;
  let ignored := (outDir ++ "/**")%string in
  call (ConsoleLog (LogIgnored ignored)) ;;
  assetWatcher <- call (Watch {| w_paths := ao_patterns assetsOptions;
                                 w_ignored := ignored |}) ;;
  on assetWatcher "change" (assetListener assetsOptions) ;;
  codeWatcher <- call (Watch {| w_paths := bo_entryPoints esbuildOptions;
                                w_ignored := ignored |}) ;;
  on codeWatcher "change" (codeListener builder) ;;
  ret tt.

(** *** Execution against the external services *)

(** What a run does to the outside, in the order the calls are made. *)
Inductive Effect :=
| Erimraf (dir : string)
| Etime (label : string)
| EtimeEnd (label : string)
| Elog (v : LogValue)
| Ebuild (c : BuildCall)
| Erebuild (builder : BuildResult)
| Ecpy (c : CpyCall)
| Ewatch (c : WatchCall)
| Eon (w : Watcher) (event : string).

(** The behaviour of the external services in one execution.  An
    asynchronous operation is identified by its rank among the operations
    started so far; the services decide how long it takes and how it ends.
    [rimraf_sync] yields the error thrown, if any; [path_relative] is Node's
    [path.relative]; [watch_matches] and [ignore_matches] are the watcher's
    pattern matching. *)
Record World := {
  rimraf_sync : string -> option JS.Error;
  path_relative : string -> string -> string;
  build_result : nat -> BuildCall -> nat * (JS.Error + BuildResult);
  rebuild_result : nat -> BuildResult -> nat * (JS.Error + BuildResult);
  cpy_result : nat -> CpyCall -> nat * (JS.Error + list string);
  watch_matches : list string -> string -> bool;
  ignore_matches : string -> string -> bool
}.

Record Listener := {
  l_watcher : Watcher;
  l_event : string;
  l_body : list string -> Prog unit
}.

(** The state of the process: the effects performed so far, each with the
    instant at which it happened, the number of asynchronous operations
    started, the watchers created, the listeners registered, and the
    rejections of listener promises, which nothing awaits. *)
Record State := {
  trace : list (nat * Effect);
  started : nat;
  watchers : list WatchCall;
  listeners : list Listener;
  unhandled : list (nat * JS.Error)
}.

Definition init : State :=
  {| trace := []; started := 0; watchers := []; listeners := []; unhandled := [] |}.

Definition record (now : nat) (e : Effect) (st : State) : State :=
  {| trace := trace st ++ [(now, e)];
     started := started st;
     watchers := watchers st;
     listeners := listeners st;
     unhandled := unhandled st |}.

Definition start_op (st : State) : State :=
  {| trace := trace st;
     started := S (started st);
     watchers := watchers st;
     listeners := listeners st;
     unhandled := unhandled st |}.

Definition add_watcher (c : WatchCall) (st : State) : State :=
  {| trace := trace st;
     started := started st;
     watchers := watchers st ++ [c];
     listeners := listeners st;
     unhandled := unhandled st |}.

Definition add_listener (l : Listener) (st : State) : State :=
  {| trace := trace st;
     started := started st;
     watchers := watchers st;
     listeners := listeners st ++ [l];
     unhandled := unhandled st |}.

Definition add_unhandled (t : nat) (e : JS.Error) (st : State) : State :=
  {| trace := trace st;
     started := started st;
     watchers := watchers st;
     listeners := listeners st;
     unhandled := unhandled st ++ [(t, e)] |}.

(** A promise for an operation started at [now] that takes [d]. *)
Definition promise_of {A} (now : nat) (r : nat * (JS.Error + A)) : Promise A :=
  {| settles_at := now + fst r; outcome := snd r |}.

(** One external call: the value returned to the caller, or the exception
    thrown, and the state afterwards.  Calls take no time. *)
Definition exec (W : World) {X} (c : Cmd X) (now : nat) (st : State)
  : (JS.Error + X) * State :=
  match c in Cmd T return (JS.Error + T) * State with
  | RimrafSync dir =>
      let st' := record now (Erimraf dir) st in
      match rimraf_sync W dir with
      | Some e => (inl e, st')
      | None => (inr tt, st')
      end
  | ConsoleTime label => (inr tt, record now (Etime label) st)
  | ConsoleTimeEnd label => (inr tt, record now (EtimeEnd label) st)
  | ConsoleLog v => (inr tt, record now (Elog v) st)
  | PathRelative from to => (inr (path_relative W from to), st)
  | Build c =>
      (inr (promise_of now (build_result W (started st) c)),
       start_op (record now (Ebuild c) st))
  | Rebuild b =>
      (inr (promise_of now (rebuild_result W (started st) b)),
       start_op (record now (Erebuild b) st))
  | Cpy c =>
      (inr (promise_of now (cpy_result W (started st) c)),
       start_op (record now (Ecpy c) st))
  | Watch c =>
      (inr (length (watchers st)), add_watcher c (record now (Ewatch c) st))
  end.

(** [run W p now st]: the program [p], entered at instant [now] in state
    [st], ends at the returned instant, with a value or an uncaught
    exception.  Awaiting resumes when the promise has settled; calling an
    [async] function runs it and hands its promise to the caller, who goes on
    at the instant of the call.  Every entry of the trace carries the instant
    of its effect. *)
Fixpoint run (W : World) {R} (p : Prog R) (now : nat) (st : State)
  : (nat * (JS.Error + R)) * State :=
  match p with
  | Ret r => ((now, inr r), st)
  | Vis c k =>
      match exec W c now st with
      | (inr x, st') => run W (k x) now st'
      | (inl e, st') => ((now, inl e), st')
      end
  | Async callee k =>
      let '((t, out), st') := run W callee now st in
      run W (k {| settles_at := t; outcome := out |}) now st'
  | Await pr k =>
      let t := Nat.max now (settles_at pr) in
      match outcome pr with
      | inr a => run W (k a) t st
      | inl e => ((t, inl e), st)
      end
  | On w ev l k =>
      run W k now
        (add_listener {| l_watcher := w; l_event := ev; l_body := l |}
           (record now (Eon w ev) st))
  end.

(** The watcher [w] emits [event] with [params] at [now]: every listener
    registered for it is called.  A listener is an [async] function whose
    promise the emitter drops, so a rejection stays unhandled; it is recorded
    with its instant.  What the runtime then does with the process is told by
    [ended], and what the emitter does with an [error] event that has no
    listener by [emitter_emit]. *)
Definition call_listener (W : World) (params : list string) (now : nat)
  (st : State) (l : Listener) : State :=
  let '((t, out), st') := run W (l_body l params) now st in
  match out with
  | inl e => add_unhandled t e st'
  | inr _ => st'
  end.

Definition emit (W : World) (w : Watcher) (event : string)
  (params : list string) (now : nat) (st : State) : State :=
  fold_left (call_listener W params now)
    (filter (fun l => Nat.eqb (l_watcher l) w && String.eqb (l_event l) event)
       (listeners st))
    st.

(** The contract of the external watcher service, which watches a set of
    path patterns and excludes what [ignored] matches: a change of [path] is
    reported by each watcher whose paths match it and whose [ignored] pattern
    does not.  How patterns match paths is left to the service. *)
Definition observes (W : World) (c : WatchCall) (path : string) : bool :=
  watch_matches W (w_paths c) path && negb (ignore_matches W (w_ignored c) path).

Fixpoint fs_change_from (W : World) (w : Watcher) (ws : list WatchCall)
  (path : string) (now : nat) (st : State) : State :=
  match ws with
  | [] => st
  | c :: ws' =>
      let st' := if observes W c path then emit W w "change" [path] now st else st in
      fs_change_from W (S w) ws' path now st'
  end.

Definition fs_change (W : World) (path : string) (now : nat) (st : State) : State :=
  fs_change_from W 0 (watchers st) path now st.

(** A sequence of file changes, each with the instant it is reported. *)
Fixpoint fs_changes (W : World) (changes : list (string * nat)) (st : State) : State :=
  match changes with
  | [] => st
  | (path, now) :: rest => fs_changes W rest (fs_change W path now st)
  end.

(** The subscriptions [watchBuild] leaves behind when nothing fails. *)
Definition watching (outDir : string) (esbuildOptions : @BuildOptions Plugin)
  (assetsOptions : AssetsOptions) (builder : BuildResult) (st : State) : Prop :=
  watchers st
  = [{| w_paths := ao_patterns assetsOptions; w_ignored := (outDir ++ "/**")%string |};
     {| w_paths := bo_entryPoints esbuildOptions; w_ignored := (outDir ++ "/**")%string |}]
  /\ listeners st
  = [{| l_watcher := 0; l_event := "change"; l_body := assetListener assetsOptions |};
     {| l_watcher := 1; l_event := "change"; l_body := codeListener builder |}].

(** *** Reading a trace *)

Definition is_rimraf (e : Effect) : bool :=
  match e with Erimraf _ => true | _ => false end.
Definition is_build (e : Effect) : bool :=
  match e with Ebuild _ => true | _ => false end.
Definition is_cpy (e : Effect) : bool :=
  match e with Ecpy _ => true | _ => false end.

(** How many effects of a kind a trace holds. *)
Definition occurrences (kind : Effect -> bool) (tr : list (nat * Effect)) : nat :=
  length (filter (fun x => kind (snd x)) tr).

(** The call [copyNonSourceFiles] is expected to make to [cpy]. *)
Definition cpy_call (W : World) (assetsOptions : AssetsOptions) : CpyCall :=
  {| cpy_patterns := ao_patterns assetsOptions;
     cpy_destination :=
       path_relative W (ao_baseDir assetsOptions) (ao_outDir assetsOptions);
     cpy_cwd := ao_baseDir assetsOptions;
     cpy_parents := true |}.

End Orchestration.

(** ** Node's [path.relative] on POSIX

    A model of [path.posix.relative(from, to)] with the working directory as
    a parameter: both paths are resolved against it and normalised, the
    common leading segments are dropped, and the result climbs out of what is
    left of [from] before descending into what is left of [to]. *)

Module Posix.

Fixpoint split_from (acc s : string) : list string :=
  match s with
  | EmptyString => [acc]
  | String c s' =>
      if Ascii.eqb c "/"%char then acc :: split_from "" s'
      else split_from (acc ++ String c "")%string s'
  end.

Definition split (s : string) : list string := split_from "" s.

(** [stack] holds the segments kept so far, innermost first. *)
Fixpoint normalize (stack segs : list string) : list string :=
  match segs with
  | [] => rev stack
  | seg :: rest =>
      if String.eqb seg "" || String.eqb seg "." then normalize stack rest
      else if String.eqb seg ".." then normalize (tl stack) rest
      else normalize (seg :: stack) rest
  end.

Definition is_absolute (p : string) : bool :=
  match p with
  | String c _ => Ascii.eqb c "/"%char
  | EmptyString => false
  end.

Definition resolve (cwd p : string) : list string :=
  normalize [] (if is_absolute p then split p else split cwd ++ split p).

Fixpoint strip_common (f t : list string) : list string * list string :=
  match f, t with
  | a :: f', b :: t' => if String.eqb a b then strip_common f' t' else (f, t)
  | _, _ => (f, t)
  end.

Definition relative (cwd from to : string) : string :=
  let '(f, t) := strip_common (resolve cwd from) (resolve cwd to) in
  String.concat "/" (map (fun _ => "..") f ++ t).

End Posix.

(** ** The rules as the specification words them *)

(** A flag is set when it is present and true. *)
Definition is_set (flag : option bool) : bool :=
  match flag with Some true => true | _ => false end.

(** The ordered four-branch rule for the source-map mode. *)
Definition resolveSourceMapMode (sourceMap inlineSourceMap inlineSources : option bool)
  : SourceMap :=
  if is_set inlineSources && negb (is_set inlineSourceMap || is_set sourceMap)
  then SmBool false
  else if is_set sourceMap && is_set inlineSourceMap
  then SmBool false
  else if is_set inlineSourceMap
  then SmInline
  else passthrough sourceMap.

(** A precedence-ordered list of optional values read left to right: the
    first one present, else the literal default. *)
Fixpoint first_present {A} (layers : list (option A)) (default : A) : A :=
  match layers with
  | [] => default
  | Some v :: _ => v
  | None :: rest => first_present rest default
  end.

(** A string layer counts as absent when it is the empty string. *)
Definition nonempty (layer : option string) : option string :=
  match layer with
  | Some s => if String.eqb s "" then None else Some s
  | None => None
  end.

(** The compiler options with the three source-map flags as given. *)
Definition with_flags (sourceMap inlineSourceMap inlineSources : option bool)
  (tsConfig : TSConfig) : TSConfig :=
  {| options := {| sourceMap := sourceMap;
                   inlineSources := inlineSources;
                   inlineSourceMap := inlineSourceMap;
                   co_outDir := co_outDir (options tsConfig) |};
     fileNames := fileNames tsConfig;
     raw := raw tsConfig |}.

(** ** Concrete inputs *)

Module Sample.

(** A host in which [tsconfig.json] is found at ["/app/tsconfig.json"] and
    parses to the given configuration. *)
Definition host (tsConfig : TSConfig) : @TsHost unit :=
  {| cwd := "/app";
     findConfigFile := fun dir name => Some (dir ++ "/" ++ name)%string;
     readConfigFile := fun _ => tt;
     parseJsonConfigFileContent := fun _ _ => tsConfig |}.

Definition no_flags (outDir : option string) : CompilerOptions :=
  {| sourceMap := None; inlineSources := None; inlineSourceMap := None;
     co_outDir := outDir |}.

Definition tsconfig_build : TSConfig :=
  {| options := no_flags (Some "build"); fileNames := ["a.ts"; "b.ts"]; raw := None |}.

(** A user configuration whose [outDir] is the empty string. *)
Definition config_empty_outDir : @Config unit :=
  {| outDir := Some ""; tsConfigFile := None; watch := None;
     esbuild := None; assets := None |}.

(** A user configuration with one extra entry point. *)
Definition config_extra_entry : @Config unit :=
  {| outDir := None; tsConfigFile := None; watch := None;
     esbuild := Some {| entryPoints := Some ["extra.ts"]; target := None;
                        minify := None; plugins := None |};
     assets := None |}.

(** A user configuration whose asset patterns are the empty list. *)
Definition config_no_patterns : @Config unit :=
  {| outDir := None; tsConfigFile := None; watch := None;
     esbuild := None;
     assets := Some {| baseDir := None; filePatterns := Some [] |} |}.

Definition options_dist : @BuildOptions unit :=
  {| bo_outdir := "dist"; bo_entryPoints := ["a.ts"; "b.ts"];
     bo_sourcemap := SmUndefined; bo_target := "es6"; bo_minify := false;
     bo_plugins := []; bo_tsconfig := "/app/tsconfig.json" |}.

Definition assets_src_dist : AssetsOptions :=
  {| ao_baseDir := "src"; ao_outDir := "dist";
     ao_patterns := ["**"; "!**/*.{ts,js,tsx,jsx}"] |}.

(** Services in which everything succeeds: a build takes 5, a rebuild 2, a
    copy 1; build results are numbered; the watchers match by prefix. *)
Definition world_ok : @World unit nat :=
  {| rimraf_sync := fun _ => None;
     path_relative := Posix.relative "/app";
     build_result := fun _ _ => (5, inr 0);
     rebuild_result := fun _ b => (2, inr (S b));
     cpy_result := fun _ _ => (1, inr ["../dist/logo.png"]);
     watch_matches := fun _ _ => true;
     ignore_matches := fun pattern path => String.prefix "dist/" path |}.

(** Services in which the copy fails after 1 while the build succeeds
    after 5. *)
Definition world_copy_fails_first : @World unit nat :=
  {| rimraf_sync := fun _ => None;
     path_relative := Posix.relative "/app";
     build_result := fun _ _ => (5, inr 0);
     rebuild_result := fun _ b => (2, inr (S b));
     cpy_result := fun _ _ => (1, inl "EACCES: permission denied");
     watch_matches := fun _ _ => true;
     ignore_matches := fun pattern path => String.prefix "dist/" path |}.

End Sample.

(** ** The entry point *)

(** Whether a [sourcemap] value makes esbuild emit a source map: its
    truthiness. *)
Definition sourcemap_enabled (v : SourceMap) : bool :=
  match v with
  | SmUndefined => false
  | SmBool b => b
  | SmInline => true
  end.

Section Entry.

Context {Plugin Json BuildResult : Type}.

(** What [main] reads from the process besides the compiler API:
    [argv.config], Node's [path.resolve], and [readUserConfig].  The latter
    is imported from [./config], which is not among the sources; it is a
    parameter here, an asynchronous operation that, given the path, takes
    some time and yields a [Config] or fails. *)
Record Process := {
  argv_config : option string;
  path_resolve : string -> string -> string;
  readUserConfig : string -> nat * (JS.Error + @Config Plugin)
}.

(** What [main] returns: nothing in watch mode, the pair of results
    of [normalBuild] otherwise. *)
Inductive MainResult :=
| Watching
| Built (result : BuildResult * list string).

(** [main()], entered at instant 0 in the initial state: the instant at
    which its promise settles, its value or the error it rejects with, and
    the state of the process then. *)
Definition main (ts : @TsHost Json) (P : Process) (W : @World Plugin BuildResult)
  : (nat * (JS.Error + MainResult)) * @State Plugin BuildResult :=
  let configFilename := (argv_config P ||! "etsc.config.js")%js in
  let '(t0, loaded) := readUserConfig P (path_resolve P (cwd ts) configFilename) in
  match loaded with
  | inl e => ((t0, inl e), init)
  | inr config =>
      match getBuildMetadata ts config with
      | inl e => ((t0, inl e), init)
      | inr m =>
          if truthy (watch config) then
            let '((t, out), st) :=
              run W (watchBuild (bm_outDir m) (esbuildOptions m) (assetsOptions m))
                t0 init in
            match out with
            | inr _ => ((t, inr Watching), st)
            | inl e => ((t, inl e), st)
            end
          else
            let '((t, out), st) :=
              run W (normalBuild (bm_outDir m) (esbuildOptions m) (assetsOptions m))
                t0 (record t0 (Etime "Built in") init) in
            match out with
            | inr result =>
                ((t, inr (Built result)), record t (EtimeEnd "Built in") st)
            | inl e => ((t, inl e), st)
            end
      end
  end.

(** What the last statement of the file adds: [console.error(err)] and
    [process.exit(1)] when [main] rejects, nothing when it fulfils. *)
Record Ending := {
  printed : list JS.Error;
  exit_code : option nat
}.

Definition entry (ts : @TsHost Json) (P : Process) (W : @World Plugin BuildResult)
  : Ending * @State Plugin BuildResult :=
  let '((_, out), st) := main ts P W in
  match out with
  | inr _ => ({| printed := []; exit_code := None |}, st)
  | inl err => ({| printed := [err]; exit_code := Some 1 |}, st)
  end.

Definition is_rebuild (e : @Effect Plugin BuildResult) : bool :=
  match e with Erebuild _ => true | _ => false end.

(** What the process may do once the watchers run: rebuild the one handle
    and copy by the one call, besides logging and timing; it deletes
    nothing, starts no build afresh and sets up no further watcher. *)
Definition steady_effect (W : @World Plugin BuildResult)
  (assetsOptions : AssetsOptions) (builder : BuildResult)
  (e : @Effect Plugin BuildResult) : Prop :=
  match e with
  | Erebuild b => b = builder
  | Ecpy c => c = cpy_call W assetsOptions
  | Erimraf _ | Ebuild _ | Ewatch _ | Eon _ _ => False
  | Etime _ | EtimeEnd _ | Elog _ => True
  end.

End Entry.

(** ** More concrete inputs *)

Module Scenario.

(** A host in which no configuration file is found. *)
Definition host_without_tsconfig : @TsHost unit :=
  {| cwd := "/app";
     findConfigFile := fun _ _ => None;
     readConfigFile := fun _ => tt;
     parseJsonConfigFileContent := fun _ _ => Sample.tsconfig_build |}.

(** A host in which only the default name is found. *)
Definition host_default_only : @TsHost unit :=
  {| cwd := "/app";
     findConfigFile := fun dir name =>
       if String.eqb name "tsconfig.json" then Some (dir ++ "/" ++ name)%string
       else None;
     readConfigFile := fun _ => tt;
     parseJsonConfigFileContent := fun _ _ => Sample.tsconfig_build |}.

(** A user configuration naming the empty string as configuration file. *)
Definition config_empty_tsConfigFile : @Config unit :=
  {| outDir := None; tsConfigFile := Some ""; watch := None;
     esbuild := None; assets := None |}.

Definition config_one_shot : @Config unit :=
  {| outDir := None; tsConfigFile := None; watch := None;
     esbuild := None; assets := None |}.

Definition config_watch : @Config unit :=
  {| outDir := None; tsConfigFile := None; watch := Some true;
     esbuild := None; assets := None |}.

(** A user configuration whose sub-objects are present and empty. *)
Definition config_empty_objects : @Config unit :=
  {| outDir := Some "out"; tsConfigFile := None; watch := None;
     esbuild := Some {| entryPoints := None; target := None;
                        minify := None; plugins := None |};
     assets := Some {| baseDir := None; filePatterns := None |} |}.

(** A process started without [--config] whose configuration loads after 2. *)
Definition process_of (config : @Config unit) : @Process unit :=
  {| argv_config := None;
     path_resolve := fun dir name => (dir ++ "/" ++ name)%string;
     readUserConfig := fun _ => (2, inr config) |}.

(** A process whose configuration module cannot be loaded. *)
Definition process_unreadable : @Process unit :=
  {| argv_config := None;
     path_resolve := fun dir name => (dir ++ "/" ++ name)%string;
     readUserConfig := fun path => (2, inl ("Cannot find module " ++ path)%string) |}.

(** Services in which the deletion throws. *)
Definition world_rimraf_throws : @World unit nat :=
  {| rimraf_sync := fun _ => Some "EPERM: operation not permitted";
     path_relative := Posix.relative "/app";
     build_result := fun _ _ => (5, inr 0);
     rebuild_result := fun _ b => (2, inr (S b));
     cpy_result := fun _ _ => (1, inr ["../dist/logo.png"]);
     watch_matches := fun _ _ => true;
     ignore_matches := fun pattern path => String.prefix "dist/" path |}.

(** Services in which builds and copies succeed and every rebuild fails. *)
Definition world_rebuild_fails : @World unit nat :=
  {| rimraf_sync := fun _ => None;
     path_relative := Posix.relative "/app";
     build_result := fun _ _ => (5, inr 0);
     rebuild_result := fun _ _ => (2, inl "Build failed with 1 error");
     cpy_result := fun _ _ => (1, inr ["../dist/logo.png"]);
     watch_matches := fun _ _ => true;
     ignore_matches := fun pattern path => String.prefix "dist/" path |}.

(** The state [watchBuild] leaves with the services of [Sample.world_ok]. *)
Definition started_watching : @State unit nat :=
  snd (run Sample.world_ok
         (watchBuild "dist" Sample.options_dist Sample.assets_src_dist) 0 init).

End Scenario.

(** ** The runtime around the listeners *)

Section Runtime.

Context {Plugin BuildResult : Type}.

(** [watcher.emit(event, ...params)] in full, as Node's [EventEmitter] does
    it: an ["error"] event for which no listener is registered is thrown, its
    first argument being the exception, which nothing catches; any other event
    is dispatched to its listeners by [emit]. *)
Definition emitter_emit (W : @World Plugin BuildResult) (w : Watcher)
  (event : string) (params : list string) (now : nat)
  (st : @State Plugin BuildResult) : JS.Error + @State Plugin BuildResult :=
  if String.eqb event "error"
     && negb (existsb (fun l => Nat.eqb (l_watcher l) w
                                && String.eqb (l_event l) "error")
                (listeners st))
  then inl (match params with err :: _ => err | [] => "Unhandled error." end)
  else inr (emit W w event params now st).

(** What the runtime does with a rejection that nothing handles: Node before
    version 15 warns and goes on, Node from version 15 on ends the process. *)
Inductive UnhandledRejections :=
| WarnAndContinue
| EndProcess.

(** Whether the process is over at [now]. *)
Definition ended (policy : UnhandledRejections) (st : @State Plugin BuildResult)
  (now : nat) : bool :=
  match policy with
  | WarnAndContinue => false
  | EndProcess => existsb (fun r => fst r <=? now)%nat (unhandled st)
  end.

(** The changes reported to a live process, in the order they are reported:
    once the process is over nothing more is handled. *)
Fixpoint watch_loop (policy : UnhandledRejections) (W : @World Plugin BuildResult)
  (changes : list (string * nat)) (st : @State Plugin BuildResult)
  : @State Plugin BuildResult :=
  match changes with
  | [] => st
  | (path, now) :: rest =>
      if ended policy st now then st
      else watch_loop policy W rest (fs_change W path now st)
  end.

End Runtime.

(** ** Matching the patterns of this program

    The watcher compares a pattern with a path as it reports it, character
    by character: it does not resolve either against the working directory.
    Only the pattern forms that the program produces are covered. *)

Module Glob.

Definition ends_with (suffix s : string) : bool :=
  String.eqb
    (String.substring (String.length s - String.length suffix)
       (String.length suffix) s)
    suffix
  && (String.length suffix <=? String.length s)%nat.

Definition has_source_extension (path : string) : bool :=
  ends_with ".ts" path || ends_with ".js" path
  || ends_with ".tsx" path || ends_with ".jsx" path.

(** ["**"] matches every path, ["**/*.{ts,js,tsx,jsx}"] the paths with one
    of these extensions, ["dir/**"] the paths that begin with ["dir/"], and
    any other pattern the path equal to it. *)
Definition matches (pattern path : string) : bool :=
  if String.eqb pattern "**" then true
  else if String.eqb pattern "**/*.{ts,js,tsx,jsx}" then has_source_extension path
  else if ends_with "/**" pattern
  then String.prefix (String.substring 0 (String.length pattern - 2) pattern) path
  else String.eqb pattern path.

Definition negated (pattern : string) : option string :=
  match pattern with
  | String c rest => if Ascii.eqb c "!"%char then Some rest else None
  | EmptyString => None
  end.

(** A path is watched when a plain pattern matches it and no negated
    pattern does. *)
Definition anymatch (patterns : list string) (path : string) : bool :=
  existsb (fun p => match negated p with
                    | None => matches p path
                    | Some _ => false
                    end) patterns
  && negb (existsb (fun p => match negated p with
                             | Some q => matches q path
                             | None => false
                             end) patterns).

End Glob.

(** ** Inputs as TypeScript resolves them *)

Module Resolved.

(** The configuration TypeScript parses in ["/app"] from a [tsconfig.json]
    with [outDir: "dist"]: paths are resolved against the base path. *)
Definition tsconfig : TSConfig :=
  {| options := Sample.no_flags (Some "/app/dist");
     fileNames := ["/app/src/a.ts"; "/app/src/b.ts"];
     raw := None |}.

Definition host : @TsHost unit := Sample.host tsconfig.

(** Build options whose entry points are the resolved file names. *)
Definition options_dist : @BuildOptions unit :=
  {| bo_outdir := "dist"; bo_entryPoints := ["/app/src/a.ts"; "/app/src/b.ts"];
     bo_sourcemap := SmUndefined; bo_target := "es6"; bo_minify := false;
     bo_plugins := []; bo_tsconfig := "/app/tsconfig.json" |}.

(** A watching user configuration that names the output directory itself. *)
Definition config_watch_dist : @Config unit :=
  {| outDir := Some "dist"; tsConfigFile := None; watch := Some true;
     esbuild := None; assets := None |}.

(** Services in which everything succeeds and patterns match as in
    [Glob]. *)
Definition world : @World unit nat :=
  {| rimraf_sync := fun _ => None;
     path_relative := Posix.relative "/app";
     build_result := fun _ _ => (5, inr 0);
     rebuild_result := fun _ b => (2, inr (S b));
     cpy_result := fun _ _ => (1, inr ["../dist/logo.png"]);
     watch_matches := Glob.anymatch;
     ignore_matches := Glob.matches |}.

(** The same services with every rebuild failing. *)
Definition world_rebuild_fails : @World unit nat :=
  {| rimraf_sync := fun _ => None;
     path_relative := Posix.relative "/app";
     build_result := fun _ _ => (5, inr 0);
     rebuild_result := fun _ _ => (2, inl "Build failed with 1 error");
     cpy_result := fun _ _ => (1, inr ["../dist/logo.png"]);
     watch_matches := Glob.anymatch;
     ignore_matches := Glob.matches |}.

End Resolved.

(** ** Facts about the resolver *)

Section ResolverFacts.

Context {Plugin Json : Type}.
Implicit Types (ts : @TsHost Json) (userConfig : @Config Plugin).

(** C1.  For every combination of [sourceMap], [inlineSourceMap] and
    [inlineSources], each true, false or undefined, and whatever the rest of
    the configuration, [esBuildSourceMapOptions] returns the value of the
    ordered four-branch rule. *)
Theorem esBuildSourceMapOptions_four_branch_rule :
  forall (sourceMap inlineSourceMap inlineSources : option bool) (rest : TSConfig),
    esBuildSourceMapOptions (with_flags sourceMap inlineSourceMap inlineSources rest)
    = resolveSourceMapMode sourceMap inlineSourceMap inlineSources.
Proof.
  intros [[|]|] [[|]|] [[|]|] rest; reflexivity.
Qed.

(** The eight boolean combinations, as a table. *)
Lemma esBuildSourceMapOptions_table (rest : TSConfig) :
  let f sm ism isrc :=
    esBuildSourceMapOptions (with_flags (Some sm) (Some ism) (Some isrc) rest) in
  f false false false = SmBool false /\
  f false false true = SmBool false /\
  f false true false = SmInline /\
  f false true true = SmInline /\
  f true false false = SmBool true /\
  f true false true = SmBool true /\
  f true true false = SmBool false /\
  f true true true = SmBool false.
Proof. cbv zeta. repeat split; reflexivity. Qed.

(** When the configuration file is located, [getTSConfig] returns what the
    compiler API parsed together with the located path. *)
Lemma getTSConfig_located ts name f :
  located ts name f -> getTSConfig ts name = inr (parsed ts f, f).
Proof.
  intros [Hfind Hne]. unfold getTSConfig. rewrite Hfind, Hne. reflexivity.
Qed.

(** When it is not, [getTSConfig] throws. *)
Lemma getTSConfig_not_located ts name :
  (forall f, ~ located ts name f) ->
  getTSConfig ts name = inl (not_found_message (cwd ts)).
Proof.
  intros Hno. unfold getTSConfig.
  destruct (findConfigFile ts (cwd ts) _) as [f|] eqn:Hfind; [|reflexivity].
  destruct (truthy f) eqn:Hf; [|reflexivity].
  exfalso. apply (Hno f). split; assumption.
Qed.

(** With the configuration file located, [getBuildMetadata] returns the
    object its body builds from the parsed configuration. *)
Lemma getBuildMetadata_located ts userConfig f :
  located ts (tsConfigFile userConfig) f ->
  exists m,
    getBuildMetadata ts userConfig = inr m /\
    bm_outDir m
    = (outDir userConfig || co_outDir (options (parsed ts f)) ||! "dist")%js /\
    esbuildOptions m
    = {| bo_outdir := bm_outDir m;
         bo_entryPoints :=
           fileNames (parsed ts f) ++ (esbuild userConfig ?. entryPoints ||! [])%js;
         bo_sourcemap := esBuildSourceMapOptions (parsed ts f);
         bo_target :=
           (esbuild userConfig ?. target
            || raw (parsed ts f) ?. compilerOptions ?. raw_target ||! "es6")%js;
         bo_minify := (esbuild userConfig ?. minify ||! false)%js;
         bo_plugins := (esbuild userConfig ?. plugins ||! [])%js;
         bo_tsconfig := f |} /\
    assetsOptions m
    = {| ao_baseDir := (assets userConfig ?. baseDir ||! "src")%js;
         ao_outDir := bm_outDir m;
         ao_patterns :=
           (assets userConfig ?. filePatterns ||! ["**"])%js ++ [source_exclusion] |}.
Proof.
  intros Hloc. unfold getBuildMetadata.
  rewrite (getTSConfig_located _ _ _ Hloc). simpl.
  eexists. split; [reflexivity|]. repeat split.
Qed.

(** [a || b ||! d] on strings picks the first operand that is present and
    not the empty string. *)
Lemma or_or_lit_string (a b : option string) (d : string) :
  (a || b ||! d)%js = first_present [nonempty a; nonempty b] d.
Proof.
  unfold JS.or, JS.or_lit, nonempty, truthy, Truthy_option, truthy, Truthy_string.
  destruct a as [a|]; [destruct (String.eqb a "") eqn:Ea|]; simpl;
    try rewrite Ea; simpl; try reflexivity;
    destruct b as [b|]; simpl; try reflexivity;
    destruct (String.eqb b ""); reflexivity.
Qed.

Lemma or_lit_string (a : option string) (d : string) :
  (a ||! d)%js = first_present [nonempty a] d.
Proof.
  unfold JS.or_lit, nonempty, truthy, Truthy_string.
  destruct a as [a|]; simpl; [|reflexivity].
  destruct (String.eqb a ""); reflexivity.
Qed.

Lemma or_lit_list {A} (a : option (list A)) (d : list A) :
  (a ||! d)%js = first_present [a] d.
Proof. destruct a; reflexivity. Qed.

Lemma or_lit_false (a : option bool) :
  (a ||! false)%js = first_present [a] false.
Proof. destruct a as [[|]|]; reflexivity. Qed.

(** C2.  Whenever the compiler configuration is located, [getBuildMetadata]
    returns, and whatever [assets.filePatterns] is (a list, the empty list,
    or absent) the asset pattern list it computed has the source-extension
    exclusion as its last element. *)
Theorem asset_patterns_end_with_exclusion ts userConfig f :
  located ts (tsConfigFile userConfig) f ->
  exists m,
    getBuildMetadata ts userConfig = inr m /\
    last (ao_patterns (assetsOptions m)) "" = "!**/*.{ts,js,tsx,jsx}".
Proof.
  intros Hloc.
  destruct (getBuildMetadata_located _ _ _ Hloc) as (m & Hm & _ & _ & Ha).
  exists m. split; [exact Hm|].
  rewrite Ha. cbn [ao_patterns]. apply last_last.
Qed.

(** C3, as the code has it.  With the configuration located, each field is
    the first layer that is present, read user configuration first, then
    compiler configuration where there is one, then the literal default;
    for the string fields [outDir], [target] and [baseDir] a layer holding
    the empty string counts as absent.  [minify], [plugins] and
    [filePatterns] are taken verbatim whenever present. *)
Theorem getBuildMetadata_precedence ts userConfig f :
  located ts (tsConfigFile userConfig) f ->
  exists m,
    getBuildMetadata ts userConfig = inr m /\
    bm_outDir m
    = first_present [nonempty (outDir userConfig);
                     nonempty (co_outDir (options (parsed ts f)))] "dist" /\
    bo_target (esbuildOptions m)
    = first_present [nonempty (esbuild userConfig ?. target)%js;
                     nonempty (raw (parsed ts f) ?. compilerOptions ?. raw_target)%js]
        "es6" /\
    bo_minify (esbuildOptions m)
    = first_present [(esbuild userConfig ?. minify)%js] false /\
    bo_plugins (esbuildOptions m)
    = first_present [(esbuild userConfig ?. plugins)%js] [] /\
    ao_baseDir (assetsOptions m)
    = first_present [nonempty (assets userConfig ?. baseDir)%js] "src" /\
    ao_patterns (assetsOptions m)
    = first_present [(assets userConfig ?. filePatterns)%js] ["**"]
      ++ ["!**/*.{ts,js,tsx,jsx}"].
Proof.
  intros Hloc.
  destruct (getBuildMetadata_located _ _ _ Hloc) as (m & Hm & Ho & He & Ha).
  exists m. split; [exact Hm|].
  rewrite He, Ha, Ho. cbn [bo_target bo_minify bo_plugins ao_baseDir ao_patterns].
  rewrite !or_or_lit_string, or_lit_string, !or_lit_list, or_lit_false.
  repeat split.
Qed.

(** C7.  With the configuration located, the entry points handed to the
    code build are the compiler-resolved file names followed by the
    user-supplied entry points (none when absent), each in its order. *)
Theorem entryPoints_compiler_files_then_user ts userConfig f :
  located ts (tsConfigFile userConfig) f ->
  exists m,
    getBuildMetadata ts userConfig = inr m /\
    bo_entryPoints (esbuildOptions m)
    = fileNames (parsed ts f)
      ++ match (esbuild userConfig ?. entryPoints)%js with
         | Some extra => extra
         | None => []
         end.
Proof.
  intros Hloc.
  destruct (getBuildMetadata_located _ _ _ Hloc) as (m & Hm & _ & He & _).
  exists m. split; [exact Hm|].
  rewrite He. cbn [bo_entryPoints].
  destruct (esbuild userConfig ?. entryPoints)%js; reflexivity.
Qed.

(** C10.  With the configuration located, an [assets.filePatterns] that is
    present and empty is kept: the pattern list is the exclusion alone. *)
Theorem empty_filePatterns_not_defaulted ts userConfig f :
  located ts (tsConfigFile userConfig) f ->
  (assets userConfig ?. filePatterns)%js = Some [] ->
  exists m,
    getBuildMetadata ts userConfig = inr m /\
    ao_patterns (assetsOptions m) = ["!**/*.{ts,js,tsx,jsx}"].
Proof.
  intros Hloc Hempty.
  destruct (getBuildMetadata_located _ _ _ Hloc) as (m & Hm & _ & _ & Ha).
  exists m. split; [exact Hm|].
  rewrite Ha. cbn [ao_patterns]. rewrite Hempty. reflexivity.
Qed.

(** By contrast, an absent [assets.filePatterns] gets the match-everything
    default. *)
Lemma absent_filePatterns_defaulted ts userConfig f :
  located ts (tsConfigFile userConfig) f ->
  (assets userConfig ?. filePatterns)%js = None ->
  exists m,
    getBuildMetadata ts userConfig = inr m /\
    ao_patterns (assetsOptions m) = ["**"; "!**/*.{ts,js,tsx,jsx}"].
Proof.
  intros Hloc Habsent.
  destruct (getBuildMetadata_located _ _ _ Hloc) as (m & Hm & _ & _ & Ha).
  exists m. split; [exact Hm|].
  rewrite Ha. cbn [ao_patterns]. rewrite Habsent. reflexivity.
Qed.

End ResolverFacts.

(** ** Facts about the orchestration *)

Section OrchestrationFacts.

Context {Plugin BuildResult : Type}.
Implicit Types (W : @World Plugin BuildResult) (st : @State Plugin BuildResult).
Implicit Types (esbuildOptions : @BuildOptions Plugin) (assetsOptions : AssetsOptions).

Lemma max_now_plus n d : Nat.max n (n + d) = n + d.
Proof. lia. Qed.

(** Running a sequence is running its parts in sequence: an exception in
    the first part ends the whole. *)
Lemma run_bind W {A B} (p : Prog A) (f : A -> Prog B) now st :
  run W (bind p f) now st
  = let '((t, out), st') := run W p now st in
    match out with
    | inr a => run W (f a) t st'
    | inl e => ((t, inl e), st')
    end.
Proof.
  revert B f now st.
  induction p as [R r|X R c k IH|A' R callee _ k IH|A' R pr k IH|R w ev l _ k IH];
    intros B f now st; simpl.
  - reflexivity.
  - destruct (exec W c now st) as [[e|x] st']; [reflexivity | apply IH].
  - destruct (run W callee now st) as [[t out] st']. apply IH.
  - destruct (outcome pr); [reflexivity | apply IH].
  - apply IH.
Qed.

(** No program ends before it is entered. *)
Lemma run_time_monotone W {R} (p : Prog R) now st :
  now <= fst (fst (run W p now st)).
Proof.
  revert now st.
  induction p as [R r|X R c k IH|A' R callee _ k IH|A' R pr k IH|R w ev l _ k IH];
    intros now st; simpl.
  - lia.
  - destruct (exec W c now st) as [[e|x] st']; [simpl; lia | apply IH].
  - destruct (run W callee now st) as [[t out] st']. apply IH.
  - destruct (outcome pr); [simpl; lia|].
    etransitivity; [|apply IH]. lia.
  - apply IH.
Qed.

(** The run of [copyNonSourceFiles]: one call to [cpy], awaited. *)
Lemma run_copyNonSourceFiles W assetsOptions now st :
  run W (copyNonSourceFiles assetsOptions) now st
  = ((now + fst (cpy_result W (started st) (cpy_call W assetsOptions)),
      snd (cpy_result W (started st) (cpy_call W assetsOptions))),
     start_op (record now (Ecpy (cpy_call W assetsOptions)) st)).
Proof.
  unfold copyNonSourceFiles. cbn. rewrite max_now_plus.
  destruct (snd (cpy_result W (started st) _)); reflexivity.
Qed.

(** The run of [buildSourceFiles]: one call to [build], awaited. *)
Lemma run_buildSourceFiles W esbuildOptions now st :
  run W (buildSourceFiles esbuildOptions) now st
  = ((now + fst (build_result W (started st) (build_call esbuildOptions None)),
      snd (build_result W (started st) (build_call esbuildOptions None))),
     start_op (record now (Ebuild (build_call esbuildOptions None)) st)).
Proof.
  unfold buildSourceFiles. cbn. rewrite max_now_plus.
  destruct (snd (build_result W (started st) _)); reflexivity.
Qed.


(** Step lemmas for programs written with the monad notation. *)
Lemma run_call_bind W {X R} (c : Cmd X) (f : X -> Prog R) now st :
  run W (x <- call c ;; f x) now st
  = match exec W c now st with
    | (inr x, st') => run W (f x) now st'
    | (inl e, st') => ((now, inl e), st')
    end.
Proof. reflexivity. Qed.

Lemma run_async_bind W {A R} (callee : Prog A) (f : Promise A -> Prog R) now st :
  run W (p <- async callee ;; f p) now st
  = let '((t, out), st') := run W callee now st in
    run W (f {| settles_at := t; outcome := out |}) now st'.
Proof. reflexivity. Qed.

Lemma run_await_bind W {A R} (pr : Promise A) (f : A -> Prog R) now st :
  run W (a <- await pr ;; f a) now st
  = match outcome pr with
    | inr a => run W (f a) (Nat.max now (settles_at pr)) st
    | inl e => ((Nat.max now (settles_at pr), inl e), st)
    end.
Proof. reflexivity. Qed.

Lemma run_await W {A} (pr : Promise A) now st :
  run W (await pr) now st = ((Nat.max now (settles_at pr), outcome pr), st).
Proof. simpl. destruct (outcome pr); reflexivity. Qed.

Lemma run_on_bind W {R} w ev l (f : unit -> Prog R) now st :
  run W (u <- on w ev l ;; f u) now st
  = run W (f tt) now
      (add_listener {| l_watcher := w; l_event := ev; l_body := l |}
         (record now (Eon w ev) st)).
Proof. reflexivity. Qed.

(** [Promise.all] of two operations started at [now]. *)
Lemma Promise_all_settles {A B} now (ra : nat * (JS.Error + A)) (rb : nat * (JS.Error + B)) :
  now <= settles_at (Promise_all (promise_of now ra) (promise_of now rb)).
Proof.
  unfold Promise_all, promise_of; simpl.
  destruct (snd ra), (snd rb); simpl; try lia.
  destruct (_ <=? _)%nat; simpl; lia.
Qed.

Lemma run_normalBuild W outDir esbuildOptions assetsOptions now st :
  rimraf_sync W outDir = None ->
  let rb := build_result W (started st) (build_call esbuildOptions None) in
  let rc := cpy_result W (S (started st)) (cpy_call W assetsOptions) in
  let pall := Promise_all (promise_of now rb) (promise_of now rc) in
  run W (normalBuild outDir esbuildOptions assetsOptions) now st
  = ((settles_at pall, outcome pall),
     start_op (record now (Ecpy (cpy_call W assetsOptions))
       (start_op (record now (Ebuild (build_call esbuildOptions None))
          (record now (Erimraf outDir) st))))).
Proof.
  intros Hrm rb rc pall. unfold normalBuild.
  rewrite run_call_bind. cbn [exec]. rewrite Hrm.
  rewrite run_async_bind, run_buildSourceFiles.
  rewrite run_async_bind, run_copyNonSourceFiles.
  rewrite run_await. cbn [started start_op record].
  fold rb rc. change (Promise_all _ _) with pall.
  rewrite Nat.max_r by apply Promise_all_settles.
  reflexivity.
Qed.

Lemma run_normalBuild_rimraf_throws W outDir esbuildOptions assetsOptions now st e :
  rimraf_sync W outDir = Some e ->
  run W (normalBuild outDir esbuildOptions assetsOptions) now st
  = ((now, inl e), record now (Erimraf outDir) st).
Proof.
  intros Hrm. unfold normalBuild.
  rewrite run_call_bind. cbn [exec]. rewrite Hrm. reflexivity.
Qed.


(** C4, as the code has it.  When the deletion does not throw,
    [normalBuild] starts the code build and then the asset copy at the
    instant it is entered, before awaiting anything.  It returns both
    results, at the later of the two completions, exactly when both
    operations succeed.  When an operation fails the run fails with the
    error of a failed operation at the completion of the earliest failure,
    whether or not the other operation has finished. *)
Theorem normalBuild_joins_or_fails_fast W outDir esbuildOptions assetsOptions now st :
  rimraf_sync W outDir = None ->
  let rb := build_result W (started st) (build_call esbuildOptions None) in
  let rc := cpy_result W (S (started st)) (cpy_call W assetsOptions) in
  let r := run W (normalBuild outDir esbuildOptions assetsOptions) now st in
  trace (snd r)
  = trace st ++ [(now, Erimraf outDir);
                 (now, Ebuild (build_call esbuildOptions None));
                 (now, Ecpy (cpy_call W assetsOptions))] /\
  match snd rb, snd rc with
  | inr b, inr files =>
      fst r = (now + Nat.max (fst rb) (fst rc), inr (b, files))
  | inl e, inr _ => fst r = (now + fst rb, inl e)
  | inr _, inl e => fst r = (now + fst rc, inl e)
  | inl eb, inl ec =>
      fst (fst r) = now + Nat.min (fst rb) (fst rc) /\
      (snd (fst r) = inl eb \/ snd (fst r) = inl ec) /\
      (fst rb < fst rc -> snd (fst r) = inl eb) /\
      (fst rc < fst rb -> snd (fst r) = inl ec)
  end.
Proof.
  intros Hrm rb rc r. subst r.
  rewrite (run_normalBuild _ _ _ _ _ _ Hrm). fold rb rc. split.
  - cbn [snd trace start_op record]. rewrite <- !app_assoc. reflexivity.
  - cbn [fst]. unfold Promise_all, promise_of. cbn [outcome settles_at].
    destruct (snd rb) as [eb|b], (snd rc) as [ec|files].
    + destruct (Nat.leb_spec (now + fst rb) (now + fst rc)); cbn [settles_at outcome].
      * split; [lia|]. split; [now left|]. split; [reflexivity | lia].
      * split; [lia|]. split; [now right|]. split; [lia | reflexivity].
    + reflexivity.
    + reflexivity.
    + cbn [settles_at outcome]. f_equal. lia.
Qed.


(** The run of [watchBuild] from the start of the process, by what the
    services answer. *)
Lemma run_watchBuild_rimraf_throws W outDir esbuildOptions assetsOptions e :
  rimraf_sync W outDir = Some e ->
  run W (watchBuild outDir esbuildOptions assetsOptions) 0 init
  = ((0, inl e),
     {| trace := [(0, Erimraf outDir)];
        started := 0; watchers := []; listeners := []; unhandled := [] |}).
Proof.
  intros Hrm. unfold watchBuild.
  rewrite run_call_bind. cbn [exec]. rewrite Hrm. reflexivity.
Qed.

Lemma run_watchBuild_build_fails W outDir esbuildOptions assetsOptions db e :
  rimraf_sync W outDir = None ->
  build_result W 0 (build_call esbuildOptions (Some true)) = (db, inl e) ->
  run W (watchBuild outDir esbuildOptions assetsOptions) 0 init
  = ((db, inl e),
     {| trace := [(0, Erimraf outDir);
                  (0, Etime "Initial build in");
                  (0, Ebuild (build_call esbuildOptions (Some true)))];
        started := 1; watchers := []; listeners := []; unhandled := [] |}).
Proof.
  intros Hrm Hb. unfold watchBuild.
  rewrite run_call_bind. cbn [exec]. rewrite Hrm.
  rewrite run_call_bind. cbn [exec].
  rewrite run_call_bind. cbn [exec started record init]. rewrite Hb.
  reflexivity.
Qed.

Lemma run_watchBuild_copy_fails W outDir esbuildOptions assetsOptions db dc builder e :
  rimraf_sync W outDir = None ->
  build_result W 0 (build_call esbuildOptions (Some true)) = (db, inr builder) ->
  cpy_result W 1 (cpy_call W assetsOptions) = (dc, inl e) ->
  run W (watchBuild outDir esbuildOptions assetsOptions) 0 init
  = ((db + dc, inl e),
     {| trace := [(0, Erimraf outDir);
                  (0, Etime "Initial build in");
                  (0, Ebuild (build_call esbuildOptions (Some true)));
                  (db, EtimeEnd "Initial build in");
                  (db, Etime "Initial assets copied in");
                  (db, Ecpy (cpy_call W assetsOptions))];
        started := 2; watchers := []; listeners := []; unhandled := [] |}).
Proof.
  intros Hrm Hb Hc. unfold watchBuild.
  rewrite run_call_bind. cbn [exec]. rewrite Hrm.
  rewrite run_call_bind. cbn [exec].
  rewrite run_call_bind. cbn [exec started record init]. rewrite Hb.
  rewrite run_await_bind. cbn [promise_of outcome settles_at fst snd].
  rewrite run_call_bind. cbn [exec].
  rewrite run_call_bind. cbn [exec].
  rewrite run_async_bind, run_copyNonSourceFiles.
  cbn [started record start_op init]. rewrite Hc.
  rewrite run_await_bind. cbn [promise_of outcome settles_at fst snd].
  cbn. rewrite max_now_plus. reflexivity.
Qed.

Lemma run_watchBuild_ok W outDir esbuildOptions assetsOptions db dc builder files :
  rimraf_sync W outDir = None ->
  build_result W 0 (build_call esbuildOptions (Some true)) = (db, inr builder) ->
  cpy_result W 1 (cpy_call W assetsOptions) = (dc, inr files) ->
  run W (watchBuild outDir esbuildOptions assetsOptions) 0 init
  = ((db + dc, inr tt),
     {| trace := [(0, Erimraf outDir);
                  (0, Etime "Initial build in");
                  (0, Ebuild (build_call esbuildOptions (Some true)));
                  (db, EtimeEnd "Initial build in");
                  (db, Etime "Initial assets copied in");
                  (db, Ecpy (cpy_call W assetsOptions));
                  (db + dc, EtimeEnd "Initial assets copied in");
                  (db + dc, Elog (LogIgnored (outDir ++ "/**")));
                  (db + dc, Ewatch {| w_paths := ao_patterns assetsOptions;
                                      w_ignored := outDir ++ "/**" |});
                  (db + dc, Eon 0 "change");
                  (db + dc, Ewatch {| w_paths := bo_entryPoints esbuildOptions;
                                      w_ignored := outDir ++ "/**" |});
                  (db + dc, Eon 1 "change")];
        started := 2;
        watchers := [{| w_paths := ao_patterns assetsOptions;
                        w_ignored := outDir ++ "/**" |};
                     {| w_paths := bo_entryPoints esbuildOptions;
                        w_ignored := outDir ++ "/**" |}];
        listeners := [{| l_watcher := 0; l_event := "change";
                         l_body := assetListener assetsOptions |};
                      {| l_watcher := 1; l_event := "change";
                         l_body := codeListener builder |}];
        unhandled := [] |}).
Proof.
  intros Hrm Hb Hc. unfold watchBuild.
  rewrite run_call_bind. cbn [exec]. rewrite Hrm.
  rewrite run_call_bind. cbn [exec].
  rewrite run_call_bind. cbn [exec started record init]. rewrite Hb.
  rewrite run_await_bind. cbn [promise_of outcome settles_at fst snd].
  rewrite run_call_bind. cbn [exec].
  rewrite run_call_bind. cbn [exec].
  rewrite run_async_bind, run_copyNonSourceFiles.
  cbn [started record start_op init]. rewrite Hc.
  rewrite run_await_bind. cbn [promise_of outcome settles_at fst snd].
  rewrite run_call_bind. cbn [exec].
  rewrite run_call_bind. cbn [exec].
  rewrite run_call_bind. cbn [exec].
  rewrite run_on_bind.
  rewrite run_call_bind. cbn [exec].
  rewrite run_on_bind.
  cbn. rewrite max_now_plus. reflexivity.
Qed.


(** Case analysis on what the services answer to [watchBuild]. *)
Ltac watchBuild_cases W outDir esbuildOptions assetsOptions :=
  let e := fresh "e" in
  let Hrm := fresh "Hrm" in
  let Hb := fresh "Hb" in
  let Hc := fresh "Hc" in
  let db := fresh "db" in
  let dc := fresh "dc" in
  let builder := fresh "builder" in
  let files := fresh "files" in
  destruct (rimraf_sync W outDir) as [e|] eqn:Hrm;
  [ rewrite (run_watchBuild_rimraf_throws W outDir esbuildOptions assetsOptions e Hrm)
  | destruct (build_result W 0 (build_call esbuildOptions (Some true)))
      as [db [e|builder]] eqn:Hb;
    [ rewrite (run_watchBuild_build_fails W outDir esbuildOptions assetsOptions db e Hrm Hb)
    | destruct (cpy_result W 1 (cpy_call W assetsOptions)) as [dc [e|files]] eqn:Hc;
      [ rewrite (run_watchBuild_copy_fails W outDir esbuildOptions assetsOptions
                   db dc builder e Hrm Hb Hc)
      | rewrite (run_watchBuild_ok W outDir esbuildOptions assetsOptions
                   db dc builder files Hrm Hb Hc) ] ] ].

(** Membership in an explicit trace, one entry at a time. *)
Ltac in_trace H :=
  cbn [In trace snd fst] in H;
  repeat (destruct H as [H|H]; [try discriminate H|]);
  try contradiction.

(** C6.  From the start of the process [watchBuild] deletes the output
    directory first and once; it starts at most one code build, with
    [incremental: true], and at most one asset copy; a copy is started only
    once the build has fulfilled, at the instant it did.  When nothing fails
    the run is the sequence: delete, build, copy, then the two watchers, the
    code listener holding the result of that one build. *)
Theorem watchBuild_initial_passes_sequential W outDir esbuildOptions assetsOptions :
  let rb := build_result W 0 (build_call esbuildOptions (Some true)) in
  let rc := cpy_result W 1 (cpy_call W assetsOptions) in
  let r := run W (watchBuild outDir esbuildOptions assetsOptions) 0 init in
  hd_error (trace (snd r)) = Some (0, Erimraf outDir) /\
  occurrences is_rimraf (trace (snd r)) = 1 /\
  occurrences is_build (trace (snd r)) <= 1 /\
  occurrences is_cpy (trace (snd r)) <= 1 /\
  (forall t c, In (t, Ebuild c) (trace (snd r)) ->
     t = 0 /\ c = build_call esbuildOptions (Some true)) /\
  (forall t c, In (t, Ecpy c) (trace (snd r)) ->
     exists builder, snd rb = inr builder /\ t = fst rb) /\
  (forall t c, In (t, Ewatch c) (trace (snd r)) ->
     exists builder files,
       snd rb = inr builder /\ snd rc = inr files /\ t = fst rb + fst rc) /\
  (rimraf_sync W outDir = None ->
   forall builder files, snd rb = inr builder -> snd rc = inr files ->
     fst r = (fst rb + fst rc, inr tt) /\
     trace (snd r)
     = [(0, Erimraf outDir);
        (0, Etime "Initial build in");
        (0, Ebuild (build_call esbuildOptions (Some true)));
        (fst rb, EtimeEnd "Initial build in");
        (fst rb, Etime "Initial assets copied in");
        (fst rb, Ecpy (cpy_call W assetsOptions));
        (fst rb + fst rc, EtimeEnd "Initial assets copied in");
        (fst rb + fst rc, Elog (LogIgnored (outDir ++ "/**")));
        (fst rb + fst rc, Ewatch {| w_paths := ao_patterns assetsOptions;
                                    w_ignored := outDir ++ "/**" |});
        (fst rb + fst rc, Eon 0 "change");
        (fst rb + fst rc, Ewatch {| w_paths := bo_entryPoints esbuildOptions;
                                    w_ignored := outDir ++ "/**" |});
        (fst rb + fst rc, Eon 1 "change")] /\
     listeners (snd r)
     = [{| l_watcher := 0; l_event := "change";
           l_body := assetListener assetsOptions |};
        {| l_watcher := 1; l_event := "change";
           l_body := codeListener builder |}]).
Proof.
  intros rb rc r. subst rb rc r.
  watchBuild_cases W outDir esbuildOptions assetsOptions;
    cbn [fst snd trace listeners];
    (split; [reflexivity|]);
    (split; [reflexivity|]);
    (split; [cbn; lia|]);
    (split; [cbn; lia|]);
    (split; [intros t c H; in_trace H; injection H as <- <-; split; reflexivity|]);
    (split; [intros t c H; in_trace H; injection H as <- <-; eexists; split; reflexivity|]);
    (split; [intros t c H; in_trace H; injection H as <- <-;
             do 2 eexists; repeat split; reflexivity|]);
    intros Hok b fs Hbr Hcr; try discriminate.
  injection Hbr as <-. repeat split.
Qed.


(** A change of a path that every watcher's [ignored] pattern matches is
    reported by no watcher: no listener runs. *)
Lemma fs_change_from_ignored W w (ws : list WatchCall) path now st :
  (forall c, In c ws -> ignore_matches W (w_ignored c) path = true) ->
  fs_change_from W w ws path now st = st.
Proof.
  revert w. induction ws as [|c ws IH]; intros w Hign; [reflexivity|].
  cbn [fs_change_from]. unfold observes.
  rewrite (Hign c (or_introl eq_refl)), andb_false_r.
  apply IH. intros c' Hc'. apply Hign. right. exact Hc'.
Qed.

(** Every watch subscription that [watchBuild] creates is given
    [outDir + "/**"] as its [ignored] pattern; when nothing fails these are
    exactly the asset watcher and the code watcher.  A change is reported by
    neither watcher when the service finds that pattern to match the path as
    reported; whether it does is the service's matter. *)
Lemma watchers_exclude_output_directory W outDir esbuildOptions assetsOptions :
  let rb := build_result W 0 (build_call esbuildOptions (Some true)) in
  let rc := cpy_result W 1 (cpy_call W assetsOptions) in
  let st := snd (run W (watchBuild outDir esbuildOptions assetsOptions) 0 init) in
  (forall t c, In (t, Ewatch c) (trace st) -> w_ignored c = (outDir ++ "/**")%string) /\
  (forall c, In c (watchers st) -> w_ignored c = (outDir ++ "/**")%string) /\
  (forall path now,
     ignore_matches W (outDir ++ "/**") path = true ->
     fs_change W path now st = st) /\
  (rimraf_sync W outDir = None ->
   forall builder files, snd rb = inr builder -> snd rc = inr files ->
     watchers st
     = [{| w_paths := ao_patterns assetsOptions; w_ignored := outDir ++ "/**" |};
        {| w_paths := bo_entryPoints esbuildOptions; w_ignored := outDir ++ "/**" |}]).
Proof.
  intros rb rc st.
  assert (Hw : forall c, In c (watchers st) -> w_ignored c = (outDir ++ "/**")%string).
  { subst st. watchBuild_cases W outDir esbuildOptions assetsOptions;
      intros c H; cbn [snd watchers In] in H; try contradiction.
    destruct H as [<-|[<-|[]]]; reflexivity. }
  split; [|split; [exact Hw|split]].
  - subst st. watchBuild_cases W outDir esbuildOptions assetsOptions;
      intros t c H; in_trace H; injection H as _ <-; reflexivity.
  - intros path now Hign. unfold fs_change.
    apply fs_change_from_ignored. intros c Hc. rewrite (Hw c Hc). exact Hign.
  - subst rb rc st. watchBuild_cases W outDir esbuildOptions assetsOptions;
      intros Hok b fs Hbr Hcr; try discriminate. reflexivity.
Qed.

Lemma normalize_snoc (stack segs : list string) (seg : string) :
  String.eqb seg "" = false -> String.eqb seg "." = false ->
  String.eqb seg ".." = false ->
  Posix.normalize stack (segs ++ [seg]) = Posix.normalize stack segs ++ [seg].
Proof.
  intros H0 H1 H2. revert stack.
  induction segs as [|s segs IH]; intros stack; cbn [Posix.normalize app].
  - rewrite H0, H1, H2. reflexivity.
  - destruct (String.eqb s "" || String.eqb s "."); [apply IH|].
    destruct (String.eqb s ".."); apply IH.
Qed.

Lemma strip_common_prefix (l f t : list string) :
  Posix.strip_common (l ++ f) (l ++ t) = Posix.strip_common f t.
Proof.
  induction l as [|a l IH]; [reflexivity|].
  cbn [app Posix.strip_common]. rewrite String.eqb_refl. exact IH.
Qed.

(** From any working directory, the way from ["src"] to ["dist"] is
    ["../dist"]. *)
Lemma relative_src_dist (cwd : string) :
  Posix.relative cwd "src" "dist" = "../dist".
Proof.
  unfold Posix.relative.
  change (Posix.resolve cwd "src")
    with (Posix.normalize [] (Posix.split cwd ++ ["src"])).
  change (Posix.resolve cwd "dist")
    with (Posix.normalize [] (Posix.split cwd ++ ["dist"])).
  rewrite !normalize_snoc by reflexivity.
  rewrite strip_common_prefix. reflexivity.
Qed.

(** C9.  [copyNonSourceFiles] makes one call to the copy utility, with the
    patterns of the record, the working directory [baseDir], [parents] set,
    and the destination [path.relative(baseDir, outDir)]; with POSIX paths,
    [baseDir] ["src"] and [outDir] ["dist"] give the destination
    ["../dist"]. *)
Theorem copyNonSourceFiles_destination_relative_to_baseDir W assetsOptions now st :
  trace (snd (run W (copyNonSourceFiles assetsOptions) now st))
  = trace st
    ++ [(now, Ecpy {| cpy_patterns := ao_patterns assetsOptions;
                      cpy_destination :=
                        path_relative W (ao_baseDir assetsOptions)
                          (ao_outDir assetsOptions);
                      cpy_cwd := ao_baseDir assetsOptions;
                      cpy_parents := true |})] /\
  (forall cwd patterns,
     path_relative W = Posix.relative cwd ->
     assetsOptions
     = {| ao_baseDir := "src"; ao_outDir := "dist"; ao_patterns := patterns |} ->
     trace (snd (run W (copyNonSourceFiles assetsOptions) now st))
     = trace st
       ++ [(now, Ecpy {| cpy_patterns := patterns;
                         cpy_destination := "../dist";
                         cpy_cwd := "src";
                         cpy_parents := true |})]).
Proof.
  rewrite run_copyNonSourceFiles. cbn [snd trace start_op record]. split.
  - reflexivity.
  - intros cwd patterns Hrel ->. unfold cpy_call.
    cbn [ao_baseDir ao_outDir ao_patterns]. rewrite Hrel, relative_src_dist.
    reflexivity.
Qed.


(** The run of the code listener: one call to [rebuild] on the handle it
    holds, awaited; the closing timer line is reached only on success. *)
Lemma run_codeListener W (builder : BuildResult) params now st :
  let rr := rebuild_result W (started st) builder in
  let st' := start_op (record now (Erebuild builder)
               (record now (Etime "Rebuilt in")
                  (record now (Elog (LogParams params)) st))) in
  run W (codeListener builder params) now st
  = match snd rr with
    | inr _ => ((now + fst rr, inr tt),
                record (now + fst rr) (EtimeEnd "Rebuilt in") st')
    | inl e => ((now + fst rr, inl e), st')
    end.
Proof.
  intros rr st'. unfold codeListener.
  rewrite run_call_bind. cbn [exec].
  rewrite run_call_bind. cbn [exec].
  rewrite run_call_bind. cbn [exec started record].
  rewrite run_await_bind. cbn [promise_of outcome settles_at].
  fold rr. rewrite max_now_plus.
  destruct (snd rr); reflexivity.
Qed.

(** The run of the asset listener: one full copy, awaited. *)
Lemma run_assetListener W assetsOptions params now st :
  let rc := cpy_result W (started st) (cpy_call W assetsOptions) in
  let st' := start_op (record now (Ecpy (cpy_call W assetsOptions))
               (record now (Etime "Assets copied in")
                  (record now (Elog (LogParams params)) st))) in
  run W (assetListener assetsOptions params) now st
  = match snd rc with
    | inr _ => ((now + fst rc, inr tt),
                record (now + fst rc) (EtimeEnd "Assets copied in") st')
    | inl e => ((now + fst rc, inl e), st')
    end.
Proof.
  intros rc st'. unfold assetListener.
  rewrite run_call_bind. cbn [exec].
  rewrite run_call_bind. cbn [exec].
  rewrite run_async_bind, run_copyNonSourceFiles.
  cbn [started record]. fold rc.
  rewrite run_await_bind. cbn [outcome settles_at].
  rewrite max_now_plus.
  destruct (snd rc); reflexivity.
Qed.

(** A listener whose operation fails leaves a rejection that nothing
    handles; it registers and removes no watcher and no listener. *)
Lemma failed_rebuild_left_unhandled W (builder : BuildResult) w params now st d e :
  rebuild_result W (started st) builder = (d, inl e) ->
  let st' := call_listener W params now st
               {| l_watcher := w; l_event := "change";
                  l_body := codeListener builder |} in
  unhandled st' = unhandled st ++ [(now + d, e)] /\
  watchers st' = watchers st /\
  listeners st' = listeners st /\
  trace st' = trace st ++ [(now, Elog (LogParams params));
                           (now, Etime "Rebuilt in");
                           (now, Erebuild builder)].
Proof.
  intros Hr st'. subst st'. unfold call_listener. cbn [l_body].
  rewrite run_codeListener, Hr. cbn. rewrite <- !app_assoc. repeat split.
Qed.

Lemma failed_copy_left_unhandled W assetsOptions w params now st d e :
  cpy_result W (started st) (cpy_call W assetsOptions) = (d, inl e) ->
  let st' := call_listener W params now st
               {| l_watcher := w; l_event := "change";
                  l_body := assetListener assetsOptions |} in
  unhandled st' = unhandled st ++ [(now + d, e)] /\
  watchers st' = watchers st /\
  listeners st' = listeners st /\
  trace st' = trace st ++ [(now, Elog (LogParams params));
                           (now, Etime "Assets copied in");
                           (now, Ecpy (cpy_call W assetsOptions))].
Proof.
  intros Hc st'. subst st'. unfold call_listener. cbn [l_body].
  rewrite run_assetListener, Hc. cbn. rewrite <- !app_assoc. repeat split.
Qed.


(** Neither listener of [watchBuild] touches the subscriptions, whether its
    operation succeeds or fails. *)
Lemma call_codeListener_keeps W (builder : BuildResult) w params now st :
  let st' := call_listener W params now st
               {| l_watcher := w; l_event := "change";
                  l_body := codeListener builder |} in
  watchers st' = watchers st /\ listeners st' = listeners st.
Proof.
  intros st'. subst st'. unfold call_listener. cbn [l_body].
  rewrite run_codeListener.
  destruct (snd (rebuild_result W (started st) builder)); split; reflexivity.
Qed.

Lemma call_assetListener_keeps W assetsOptions w params now st :
  let st' := call_listener W params now st
               {| l_watcher := w; l_event := "change";
                  l_body := assetListener assetsOptions |} in
  watchers st' = watchers st /\ listeners st' = listeners st.
Proof.
  intros st'. subst st'. unfold call_listener. cbn [l_body].
  rewrite run_assetListener.
  destruct (snd (cpy_result W (started st) (cpy_call W assetsOptions)));
    split; reflexivity.
Qed.

Lemma emit_keeps_watching W outDir esbuildOptions assetsOptions builder w params now st :
  watching outDir esbuildOptions assetsOptions builder st ->
  watching outDir esbuildOptions assetsOptions builder (emit W w "change" params now st).
Proof.
  intros [Hw Hl]. unfold emit. rewrite Hl. cbn [filter l_watcher l_event].
  destruct w as [|[|w]]; cbn [Nat.eqb String.eqb andb fold_left]; cbn.
  - destruct (call_assetListener_keeps W assetsOptions 0 params now st) as [Hw' Hl'].
    split; [rewrite Hw' | rewrite Hl']; assumption.
  - destruct (call_codeListener_keeps W builder 1 params now st) as [Hw' Hl'].
    split; [rewrite Hw' | rewrite Hl']; assumption.
  - split; assumption.
Qed.

Lemma fs_change_from_keeps_watching W outDir esbuildOptions assetsOptions builder
  w ws path now st :
  watching outDir esbuildOptions assetsOptions builder st ->
  watching outDir esbuildOptions assetsOptions builder
    (fs_change_from W w ws path now st).
Proof.
  revert w st. induction ws as [|c ws IH]; intros w st Hst; [exact Hst|].
  cbn [fs_change_from]. apply IH.
  destruct (observes W c path); [apply emit_keeps_watching|]; exact Hst.
Qed.

(** Whatever changes are reported and however the rebuilds and copies they
    trigger end, the two subscriptions stay as [watchBuild] made them. *)
Lemma fs_changes_keep_watching W outDir esbuildOptions assetsOptions builder changes st :
  watching outDir esbuildOptions assetsOptions builder st ->
  watching outDir esbuildOptions assetsOptions builder (fs_changes W changes st).
Proof.
  revert st. induction changes as [|[path now] rest IH]; intros st Hst; [exact Hst|].
  cbn [fs_changes]. apply IH. unfold fs_change.
  apply fs_change_from_keeps_watching. exact Hst.
Qed.

End OrchestrationFacts.

(** ** The theorems at concrete inputs *)

(** With [tsconfig.json] found and the user's pattern list empty, the
    computed list still ends with the exclusion. *)
Lemma asset_patterns_end_with_exclusion_witness :
  located (Sample.host Sample.tsconfig_build)
    (tsConfigFile Sample.config_no_patterns) "/app/tsconfig.json" /\
  exists m,
    getBuildMetadata (Sample.host Sample.tsconfig_build) Sample.config_no_patterns
    = inr m /\
    last (ao_patterns (assetsOptions m)) "" = "!**/*.{ts,js,tsx,jsx}".
Proof.
  split.
  - split; reflexivity.
  - apply (asset_patterns_end_with_exclusion
             (Sample.host Sample.tsconfig_build) Sample.config_no_patterns
             "/app/tsconfig.json").
    split; reflexivity.
Defined.

(** The user configuration holds [outDir: ""], the compiler configuration
    [outDir: "build"]: the resolved output directory is ["build"], not the
    user's value. *)
Lemma empty_user_outDir_not_used_verbatim :
  outDir Sample.config_empty_outDir = Some "" /\
  exists m,
    getBuildMetadata (Sample.host Sample.tsconfig_build) Sample.config_empty_outDir
    = inr m /\
    bm_outDir m = "build" /\
    bm_outDir m <> "".
Proof.
  split; [reflexivity|].
  eexists. split; [reflexivity|]. split; [reflexivity | discriminate].
Qed.

Lemma getBuildMetadata_precedence_witness :
  located (Sample.host Sample.tsconfig_build)
    (tsConfigFile Sample.config_empty_outDir) "/app/tsconfig.json" /\
  exists m,
    getBuildMetadata (Sample.host Sample.tsconfig_build) Sample.config_empty_outDir
    = inr m /\
    bm_outDir m = "build" /\
    bo_target (esbuildOptions m) = "es6" /\
    bo_minify (esbuildOptions m) = false /\
    bo_plugins (esbuildOptions m) = [] /\
    ao_baseDir (assetsOptions m) = "src" /\
    ao_patterns (assetsOptions m) = ["**"; "!**/*.{ts,js,tsx,jsx}"].
Proof.
  split.
  - split; reflexivity.
  - apply (getBuildMetadata_precedence
             (Sample.host Sample.tsconfig_build) Sample.config_empty_outDir
             "/app/tsconfig.json").
    split; reflexivity.
Defined.

(** The scenario of the specification: files [a.ts], [b.ts] and the extra
    entry point [extra.ts]. *)
Lemma entryPoints_compiler_files_then_user_witness :
  located (Sample.host Sample.tsconfig_build)
    (tsConfigFile Sample.config_extra_entry) "/app/tsconfig.json" /\
  exists m,
    getBuildMetadata (Sample.host Sample.tsconfig_build) Sample.config_extra_entry
    = inr m /\
    bo_entryPoints (esbuildOptions m) = ["a.ts"; "b.ts"; "extra.ts"].
Proof.
  split.
  - split; reflexivity.
  - apply (entryPoints_compiler_files_then_user
             (Sample.host Sample.tsconfig_build) Sample.config_extra_entry
             "/app/tsconfig.json").
    split; reflexivity.
Defined.

Lemma empty_filePatterns_not_defaulted_witness :
  located (Sample.host Sample.tsconfig_build)
    (tsConfigFile Sample.config_no_patterns) "/app/tsconfig.json" /\
  (assets Sample.config_no_patterns ?. filePatterns)%js = Some [] /\
  exists m,
    getBuildMetadata (Sample.host Sample.tsconfig_build) Sample.config_no_patterns
    = inr m /\
    ao_patterns (assetsOptions m) = ["!**/*.{ts,js,tsx,jsx}"].
Proof.
  split; [split; reflexivity|]. split; [reflexivity|].
  apply (empty_filePatterns_not_defaulted
           (Sample.host Sample.tsconfig_build) Sample.config_no_patterns
           "/app/tsconfig.json").
  - split; reflexivity.
  - reflexivity.
Defined.

(** The copy fails after 1 while the build needs 5: [normalBuild] ends at
    1, with the copy's error, before the build has finished. *)
Lemma normalBuild_ends_before_build_finishes :
  let W := Sample.world_copy_fails_first in
  rimraf_sync W "dist" = None /\
  build_result W 0 (build_call Sample.options_dist None) = (5, inr 0) /\
  fst (run W (normalBuild "dist" Sample.options_dist Sample.assets_src_dist) 0 init)
  = (1, inl "EACCES: permission denied").
Proof. repeat split. Qed.

Lemma normalBuild_joins_or_fails_fast_witness :
  let W := Sample.world_ok in
  rimraf_sync W "dist" = None /\
  fst (run W (normalBuild "dist" Sample.options_dist Sample.assets_src_dist) 0 init)
  = (5, inr (0, ["../dist/logo.png"])).
Proof.
  split; [reflexivity|].
  apply (normalBuild_joins_or_fails_fast Sample.world_ok "dist"
           Sample.options_dist Sample.assets_src_dist 0 init).
  reflexivity.
Defined.

(** With every service succeeding (build 5, copy 1) [watchBuild] ends at 6
    with both listeners registered, the code listener on build result 0. *)
Lemma watchBuild_initial_passes_sequential_witness :
  let W := Sample.world_ok in
  let r := run W (watchBuild "dist" Sample.options_dist Sample.assets_src_dist) 0 init in
  rimraf_sync W "dist" = None /\
  fst r = (6, inr tt) /\
  map fst (trace (snd r)) = [0; 0; 0; 5; 5; 5; 6; 6; 6; 6; 6; 6] /\
  map l_watcher (listeners (snd r)) = [0; 1].
Proof.
  split; [reflexivity|].
  destruct (watchBuild_initial_passes_sequential Sample.world_ok "dist"
              Sample.options_dist Sample.assets_src_dist)
    as (_ & _ & _ & _ & _ & _ & _ & H).
  destruct (H eq_refl 0 ["../dist/logo.png"] eq_refl eq_refl) as (Hr & Ht & Hl).
  split; [exact Hr|]. split; [rewrite Ht | rewrite Hl]; reflexivity.
Defined.

(** From ["/app"], copying from ["src"] to ["dist"] targets ["../dist"]. *)
Lemma copyNonSourceFiles_destination_relative_to_baseDir_witness :
  path_relative Sample.world_ok = Posix.relative "/app" /\
  trace (snd (run Sample.world_ok (copyNonSourceFiles Sample.assets_src_dist) 0 init))
  = [(0, Ecpy {| cpy_patterns := ["**"; "!**/*.{ts,js,tsx,jsx}"];
                 cpy_destination := "../dist";
                 cpy_cwd := "src";
                 cpy_parents := true |})].
Proof.
  split; [reflexivity|].
  destruct (copyNonSourceFiles_destination_relative_to_baseDir Sample.world_ok
              Sample.assets_src_dist 0 init) as (_ & H).
  exact (H "/app" ["**"; "!**/*.{ts,js,tsx,jsx}"] eq_refl eq_refl).
Defined.

(** ** Further facts about the resolver *)

Section ResolverEdges.

Context {Plugin Json : Type}.
Implicit Types (ts : @TsHost Json) (userConfig : @Config Plugin).

Lemma getTSConfig_inr_located ts name tsConfig f :
  getTSConfig ts name = inr (tsConfig, f) ->
  located ts name f /\ tsConfig = parsed ts f.
Proof.
  unfold getTSConfig, located, parsed.
  destruct (findConfigFile ts (cwd ts) _) as [f'|]; [|discriminate].
  destruct (truthy f') eqn:Hf; [|discriminate].
  intros H. injection H as <- <-. repeat split. exact Hf.
Qed.

(** [getBuildMetadata] throws exactly when the configuration file is not
    found under the name asked for, or is found at an empty path; the error
    is then the not-found message, which names [tsconfig.json] and the
    working directory whatever the name was. *)
Theorem getBuildMetadata_throws_iff_not_located ts userConfig :
  (forall e, getBuildMetadata ts userConfig = inl e ->
     e = ("tsconfig.json not found in the current directory! " ++ cwd ts)%string) /\
  ((exists e, getBuildMetadata ts userConfig = inl e) <->
   (forall f, ~ located ts (tsConfigFile userConfig) f)).
Proof.
  unfold getBuildMetadata. cbn.
  destruct (getTSConfig ts (tsConfigFile userConfig)) as [e|[tsConfig f]] eqn:Hts; cbn.
  - assert (Hno : forall f, ~ located ts (tsConfigFile userConfig) f).
    { intros f Hloc. rewrite (getTSConfig_located _ _ _ Hloc) in Hts. discriminate. }
    rewrite (getTSConfig_not_located _ _ Hno) in Hts. injection Hts as <-.
    split.
    + intros e H. injection H as <-. reflexivity.
    + split; [intros _; exact Hno | intros _; eexists; reflexivity].
  - split; [intros e H; discriminate|].
    split; [intros [e H]; discriminate|].
    intros Hno. exfalso.
    apply (Hno f). apply (getTSConfig_inr_located _ _ _ _ Hts).
Qed.

Lemma or_or_lit_truthy (a b : option string) (d : string) :
  truthy d = true -> truthy (a || b ||! d)%js = true.
Proof.
  intros Hd. unfold JS.or, JS.or_lit.
  destruct a as [a|]; cbn.
  - destruct (truthy a) eqn:Ha; [rewrite Ha; exact Ha|].
    destruct b as [b|]; [|exact Hd].
    destruct (truthy b) eqn:Hb; [exact Hb | exact Hd].
  - destruct b as [b|]; [|exact Hd].
    destruct (truthy b) eqn:Hb; [exact Hb | exact Hd].
Qed.

Lemma or_lit_truthy (a : option string) (d : string) :
  truthy d = true -> truthy (a ||! d)%js = true.
Proof.
  intros Hd. unfold JS.or_lit.
  destruct a as [a|]; [|exact Hd].
  destruct (truthy a) eqn:Ha; [exact Ha | exact Hd].
Qed.

(** Whatever the two configurations hold, what [getBuildMetadata] returns
    is coherent: the code build and the asset copy are given the one resolved
    output directory, [tsconfig] is the file that was located, and the output
    directory, the target and the asset base directory are never the empty
    string. *)
Theorem getBuildMetadata_coherent ts userConfig m :
  getBuildMetadata ts userConfig = inr m ->
  bo_outdir (esbuildOptions m) = bm_outDir m /\
  ao_outDir (assetsOptions m) = bm_outDir m /\
  located ts (tsConfigFile userConfig) (bo_tsconfig (esbuildOptions m)) /\
  bm_outDir m <> "" /\
  bo_target (esbuildOptions m) <> "" /\
  ao_baseDir (assetsOptions m) <> "".
Proof.
  unfold getBuildMetadata. cbn.
  destruct (getTSConfig ts (tsConfigFile userConfig)) as [e|[tsConfig f]] eqn:Hts;
    cbn; [discriminate|].
  intros H. injection H as <-. cbn.
  assert (Hne : forall s : string, truthy s = true -> s <> "").
  { intros s Hs ->. discriminate Hs. }
  split; [reflexivity|]. split; [reflexivity|].
  split; [apply (getTSConfig_inr_located _ _ _ _ Hts)|].
  split; [|split]; apply Hne.
  - apply or_or_lit_truthy. reflexivity.
  - apply or_or_lit_truthy. reflexivity.
  - apply or_lit_truthy. reflexivity.
Qed.

(** esbuild is asked for a source map exactly when exactly one of
    [sourceMap] and [inlineSourceMap] is set, and for an inline one exactly
    when that one is [inlineSourceMap]; [inlineSources] never changes
    either. *)
Theorem sourcemap_enabled_iff_exactly_one (tsConfig : TSConfig) :
  let sm := truthy (sourceMap (options tsConfig)) in
  let ism := truthy (inlineSourceMap (options tsConfig)) in
  sourcemap_enabled (esBuildSourceMapOptions tsConfig) = xorb sm ism /\
  (esBuildSourceMapOptions tsConfig = SmInline <-> sm = false /\ ism = true) /\
  (esBuildSourceMapOptions tsConfig = SmBool true <-> sm = true /\ ism = false).
Proof.
  destruct tsConfig as [[sm ins ism od] fns rw].
  destruct sm as [[|]|], ins as [[|]|], ism as [[|]|]; cbn;
    (split; [reflexivity|]); split; split;
    try (intros [? ?]); try (intros ?); try discriminate; try (split; reflexivity);
    reflexivity.
Qed.

(** A sub-object that is present but holds nothing resolves like an absent
    one, for [esbuild] and for [assets]. *)
Theorem empty_subobjects_like_absent ts (o t : option string) (w : option bool) :
  getBuildMetadata ts
    {| outDir := o; tsConfigFile := t; watch := w;
       esbuild := Some {| entryPoints := None; target := None;
                          minify := None; plugins := @None (list Plugin) |};
       assets := Some {| baseDir := None; filePatterns := None |} |}
  = getBuildMetadata ts
      {| outDir := o; tsConfigFile := t; watch := w;
         esbuild := None; assets := None |}.
Proof. reflexivity. Qed.

End ResolverEdges.

(** ** Further facts about the orchestration *)

Section OrchestrationEdges.

Context {Plugin BuildResult : Type}.
Implicit Types (W : @World Plugin BuildResult) (st : @State Plugin BuildResult).
Implicit Types (esbuildOptions : @BuildOptions Plugin) (assetsOptions : AssetsOptions).

(** The run of [watchBuild] entered at any instant in the initial state. *)
Lemma run_watchBuild_from W outDir esbuildOptions assetsOptions now :
  let rb := build_result W 0 (build_call esbuildOptions (Some true)) in
  let rc := cpy_result W 1 (cpy_call W assetsOptions) in
  let t1 := now + fst rb in
  let t2 := t1 + fst rc in
  let upto_build :=
    [(now, Erimraf outDir);
     (now, Etime "Initial build in");
     (now, Ebuild (build_call esbuildOptions (Some true)))] in
  let upto_copy :=
    upto_build ++ [(t1, EtimeEnd "Initial build in");
                   (t1, Etime "Initial assets copied in");
                   (t1, Ecpy (cpy_call W assetsOptions))] in
  let asset_watch :=
    {| w_paths := ao_patterns assetsOptions; w_ignored := (outDir ++ "/**")%string |} in
  let code_watch :=
    {| w_paths := bo_entryPoints esbuildOptions; w_ignored := (outDir ++ "/**")%string |} in
  run W (watchBuild outDir esbuildOptions assetsOptions) now init
  = match rimraf_sync W outDir with
    | Some e =>
        ((now, inl e),
         {| trace := [(now, Erimraf outDir)];
            started := 0; watchers := []; listeners := []; unhandled := [] |})
    | None =>
        match snd rb with
        | inl e =>
            ((t1, inl e),
             {| trace := upto_build;
                started := 1; watchers := []; listeners := []; unhandled := [] |})
        | inr builder =>
            match snd rc with
            | inl e =>
                ((t2, inl e),
                 {| trace := upto_copy;
                    started := 2; watchers := []; listeners := []; unhandled := [] |})
            | inr _ =>
                ((t2, inr tt),
                 {| trace :=
                      upto_copy
                      ++ [(t2, EtimeEnd "Initial assets copied in");
                          (t2, Elog (LogIgnored (outDir ++ "/**")));
                          (t2, Ewatch asset_watch);
                          (t2, Eon 0 "change");
                          (t2, Ewatch code_watch);
                          (t2, Eon 1 "change")];
                    started := 2;
                    watchers := [asset_watch; code_watch];
                    listeners :=
                      [{| l_watcher := 0; l_event := "change";
                          l_body := assetListener assetsOptions |};
                       {| l_watcher := 1; l_event := "change";
                          l_body := codeListener builder |}];
                    unhandled := [] |})
            end
        end
    end.
Proof.
  intros rb rc t1 t2 upto_build upto_copy asset_watch code_watch.
  unfold watchBuild.
  rewrite run_call_bind. cbn [exec].
  destruct (rimraf_sync W outDir) as [e|]; [reflexivity|].
  rewrite run_call_bind. cbn [exec].
  rewrite run_call_bind. cbn [exec started record init].
  rewrite run_await_bind. cbn [promise_of outcome settles_at].
  fold rb. rewrite max_now_plus. fold t1.
  destruct (snd rb) as [e|builder]; [reflexivity|].
  rewrite run_call_bind. cbn [exec].
  rewrite run_call_bind. cbn [exec].
  rewrite run_async_bind, run_copyNonSourceFiles.
  cbn [started record start_op init]. fold rc.
  rewrite run_await_bind. cbn [outcome settles_at].
  rewrite max_now_plus. fold t2.
  destruct (snd rc) as [e|files]; [reflexivity|].
  rewrite run_call_bind. cbn [exec].
  rewrite run_call_bind. cbn [exec].
  rewrite run_call_bind. cbn [exec].
  rewrite run_on_bind.
  rewrite run_call_bind. cbn [exec].
  rewrite run_on_bind.
  reflexivity.
Qed.

(** If the deletion throws, [normalBuild] rejects at once with that error
    and starts neither the build nor the copy. *)
Theorem normalBuild_stops_when_deletion_throws W outDir esbuildOptions assetsOptions
  now st e :
  rimraf_sync W outDir = Some e ->
  let r := run W (normalBuild outDir esbuildOptions assetsOptions) now st in
  fst r = (now, inl e) /\
  trace (snd r) = trace st ++ [(now, Erimraf outDir)] /\
  started (snd r) = started st.
Proof.
  intros Hrm r. subst r.
  rewrite (run_normalBuild_rimraf_throws _ _ _ _ _ _ _ Hrm).
  repeat split.
Qed.

(** [watchBuild] fulfils exactly when the deletion, the initial build and
    the initial copy all succeed.  When it rejects, it does so with the error
    of the step that failed, and it has created no watcher and registered no
    listener. *)
Theorem watchBuild_watches_only_after_success W outDir esbuildOptions assetsOptions now :
  let rb := build_result W 0 (build_call esbuildOptions (Some true)) in
  let rc := cpy_result W 1 (cpy_call W assetsOptions) in
  let r := run W (watchBuild outDir esbuildOptions assetsOptions) now init in
  (snd (fst r) = inr tt <->
   rimraf_sync W outDir = None /\
   (exists builder, snd rb = inr builder) /\ (exists files, snd rc = inr files)) /\
  (forall e, snd (fst r) = inl e ->
     watchers (snd r) = [] /\ listeners (snd r) = [] /\
     (rimraf_sync W outDir = Some e \/ snd rb = inl e \/
      (exists builder, snd rb = inr builder) /\ snd rc = inl e)).
Proof.
  intros rb rc r. subst r. rewrite run_watchBuild_from. fold rb rc.
  destruct (rimraf_sync W outDir) as [e|];
    [|destruct (snd rb) as [e|builder]; [|destruct (snd rc) as [e|files]]];
    cbn [fst snd watchers listeners].
  - split.
    + split; [discriminate | intros (H & _); discriminate].
    + intros e' H. injection H as <-. repeat split. left. reflexivity.
  - split.
    + split; [discriminate | intros (_ & [b Hb] & _); discriminate].
    + intros e' H. injection H as <-. repeat split. right. left. reflexivity.
  - split.
    + split; [discriminate | intros (_ & _ & [f Hf]); discriminate].
    + intros e' H. injection H as <-. repeat split. right. right.
      split; [eexists|]; reflexivity.
  - split.
    + split; [|reflexivity]. intros _. repeat split; eexists; reflexivity.
    + intros e' H. discriminate.
Qed.


(** Which of the two listeners of [watchBuild] an emission reaches. *)
Lemma listeners_reached outDir esbuildOptions assetsOptions (builder : BuildResult)
  st w event :
  watching outDir esbuildOptions assetsOptions builder st ->
  filter (fun l => Nat.eqb (l_watcher l) w && String.eqb (l_event l) event)
    (listeners st)
  = if String.eqb "change" event then
      match w with
      | 0 => [{| l_watcher := 0; l_event := "change";
                 l_body := assetListener assetsOptions |}]
      | 1 => [{| l_watcher := 1; l_event := "change";
                 l_body := codeListener builder |}]
      | _ => []
      end
    else [].
Proof.
  intros [_ Hl]. rewrite Hl. cbn [filter l_watcher l_event].
  destruct (String.eqb "change" event); destruct w as [|[|w]]; reflexivity.
Qed.

(** A change reported by the code watcher makes one call to [rebuild], on
    the handle of the initial build, and no copy.  The closing timer line is
    printed when the rebuild succeeds; when it fails its error is left as an
    unhandled rejection and nothing more is printed. *)
Theorem code_change_rebuilds_once W outDir esbuildOptions assetsOptions
  (builder : BuildResult) params now st :
  watching outDir esbuildOptions assetsOptions builder st ->
  let rr := rebuild_result W (started st) builder in
  let st' := emit W 1 "change" params now st in
  trace st'
  = trace st
    ++ [(now, Elog (LogParams params));
        (now, Etime "Rebuilt in");
        (now, Erebuild builder)]
    ++ match snd rr with
       | inr _ => [(now + fst rr, EtimeEnd "Rebuilt in")]
       | inl _ => []
       end /\
  unhandled st'
  = unhandled st
    ++ match snd rr with
       | inr _ => []
       | inl e => [(now + fst rr, e)]
       end.
Proof.
  intros Hst rr st'. subst st'. unfold emit.
  rewrite (listeners_reached _ _ _ _ _ _ _ Hst).
  cbn [String.eqb Ascii.eqb Bool.eqb fold_left]. cbn [fold_left].
  unfold call_listener. cbn [l_body]. rewrite run_codeListener. fold rr.
  destruct (snd rr); cbn; rewrite <- ?app_assoc, ?app_nil_r; split; reflexivity.
Qed.

(** A change reported by the asset watcher makes one call to [cpy], the
    same full copy as the initial one, and no rebuild; a failure of the copy
    is left as an unhandled rejection in the same way. *)
Theorem asset_change_copies_everything_once W outDir esbuildOptions assetsOptions
  (builder : BuildResult) params now st :
  watching outDir esbuildOptions assetsOptions builder st ->
  let rc := cpy_result W (started st) (cpy_call W assetsOptions) in
  let st' := emit W 0 "change" params now st in
  trace st'
  = trace st
    ++ [(now, Elog (LogParams params));
        (now, Etime "Assets copied in");
        (now, Ecpy (cpy_call W assetsOptions))]
    ++ match snd rc with
       | inr _ => [(now + fst rc, EtimeEnd "Assets copied in")]
       | inl _ => []
       end /\
  unhandled st'
  = unhandled st
    ++ match snd rc with
       | inr _ => []
       | inl e => [(now + fst rc, e)]
       end.
Proof.
  intros Hst rc st'. subst st'. unfold emit.
  rewrite (listeners_reached _ _ _ _ _ _ _ Hst).
  cbn [String.eqb Ascii.eqb Bool.eqb fold_left]. cbn [fold_left].
  unfold call_listener. cbn [l_body]. rewrite run_assetListener. fold rc.
  destruct (snd rc); cbn; rewrite <- ?app_assoc, ?app_nil_r; split; reflexivity.
Qed.

(** Only [change] events are listened for.  Any other event of either
    watcher, such as a file being added or removed, runs nothing, except
    [error]: having no listener, it is thrown as an uncaught exception. *)
Theorem other_events_run_nothing W outDir esbuildOptions assetsOptions
  (builder : BuildResult) w params now st :
  watching outDir esbuildOptions assetsOptions builder st ->
  (forall event,
     event <> "change" -> event <> "error" ->
     emitter_emit W w event params now st = inr st) /\
  (forall err rest, emitter_emit W w "error" (err :: rest) now st = inl err).
Proof.
  intros Hst. split.
  - intros event Hchange Herror. unfold emitter_emit.
    destruct (String.eqb_spec event "error") as [Heq|_]; [contradiction|].
    cbn [andb]. f_equal. unfold emit.
    rewrite (listeners_reached _ _ _ _ _ _ _ Hst).
    destruct (String.eqb_spec "change" event) as [Heq|_]; [|reflexivity].
    exfalso. apply Hchange. symmetry. exact Heq.
  - intros err rest. unfold emitter_emit.
    destruct Hst as [_ Hl]. rewrite Hl. cbn [existsb l_watcher l_event].
    change (String.eqb "change" "error") with false.
    rewrite !andb_false_r. reflexivity.
Qed.

(** Extending a trace by steady effects, twice. *)
Lemma steady_extension_trans W assetsOptions (builder : BuildResult)
  (tr0 tr1 tr2 : list (nat * @Effect Plugin BuildResult)) :
  (exists ext, tr1 = tr0 ++ ext /\
     Forall (fun x => steady_effect W assetsOptions builder (snd x)) ext) ->
  (exists ext, tr2 = tr1 ++ ext /\
     Forall (fun x => steady_effect W assetsOptions builder (snd x)) ext) ->
  exists ext, tr2 = tr0 ++ ext /\
    Forall (fun x => steady_effect W assetsOptions builder (snd x)) ext.
Proof.
  intros (e1 & -> & H1) (e2 & -> & H2). exists (e1 ++ e2).
  split; [symmetry; apply app_assoc | apply Forall_app; split; assumption].
Qed.

Lemma emit_steady W outDir esbuildOptions assetsOptions (builder : BuildResult)
  w params now st :
  watching outDir esbuildOptions assetsOptions builder st ->
  exists ext,
    trace (emit W w "change" params now st) = trace st ++ ext /\
    Forall (fun x => steady_effect W assetsOptions builder (snd x)) ext.
Proof.
  intros Hst. unfold emit. rewrite (listeners_reached _ _ _ _ _ _ _ Hst).
  cbn [String.eqb Ascii.eqb Bool.eqb]. cbn [fold_left].
  destruct w as [|[|w]]; cbn [fold_left].
  - unfold call_listener. cbn [l_body]. rewrite run_assetListener.
    destruct (snd (cpy_result W (started st) (cpy_call W assetsOptions)));
      cbn; eexists; (split; [rewrite <- !app_assoc; reflexivity|]);
      repeat constructor.
  - unfold call_listener. cbn [l_body]. rewrite run_codeListener.
    destruct (snd (rebuild_result W (started st) builder));
      cbn; eexists; (split; [rewrite <- !app_assoc; reflexivity|]);
      repeat constructor.
  - exists []. split; [symmetry; apply app_nil_r | constructor].
Qed.

Lemma fs_change_from_steady W outDir esbuildOptions assetsOptions
  (builder : BuildResult) w ws path now st :
  watching outDir esbuildOptions assetsOptions builder st ->
  exists ext,
    trace (fs_change_from W w ws path now st) = trace st ++ ext /\
    Forall (fun x => steady_effect W assetsOptions builder (snd x)) ext.
Proof.
  revert w st. induction ws as [|c ws IH]; intros w st Hst.
  - exists []. split; [symmetry; apply app_nil_r | constructor].
  - cbn [fs_change_from]. destruct (observes W c path).
    + eapply steady_extension_trans.
      * apply (emit_steady W _ _ _ _ w [path] now st Hst).
      * apply IH. apply emit_keeps_watching. exact Hst.
    + apply IH. exact Hst.
Qed.

(** Once [watchBuild] has set the watchers up, in every state the process
    reaches while changes are reported, whether the runtime goes on after an
    unhandled rejection or ends the process at it, the two subscriptions are
    as they were made: the code closes, replaces and adds none. *)
Theorem subscriptions_survive_changes policy W outDir esbuildOptions assetsOptions
  now builder files changes :
  rimraf_sync W outDir = None ->
  snd (build_result W 0 (build_call esbuildOptions (Some true))) = inr builder ->
  snd (cpy_result W 1 (cpy_call W assetsOptions)) = inr files ->
  watching outDir esbuildOptions assetsOptions builder
    (watch_loop policy W changes
       (snd (run W (watchBuild outDir esbuildOptions assetsOptions) now init))).
Proof.
  intros Hrm Hb Hc.
  set (st0 := snd (run W (watchBuild outDir esbuildOptions assetsOptions) now init)).
  assert (Hst0 : watching outDir esbuildOptions assetsOptions builder st0).
  { subst st0. rewrite run_watchBuild_from, Hrm, Hb, Hc. split; reflexivity. }
  clearbody st0. revert st0 Hst0.
  induction changes as [|[path t] rest IH]; intros st0 Hst0; [exact Hst0|].
  cbn [watch_loop]. destruct (ended policy st0 t); [exact Hst0|].
  apply IH. unfold fs_change. apply fs_change_from_keeps_watching. exact Hst0.
Qed.

(** Once [watchBuild] has set the watchers up, whatever changes are
    reported, the process only ever rebuilds the handle of the initial build
    and repeats the one full copy, besides logging and timing: it never
    deletes the output directory again, never starts a build afresh and never
    sets up another watcher. *)
Theorem watch_loop_only_rebuilds_and_copies W outDir esbuildOptions assetsOptions now
  builder files changes :
  rimraf_sync W outDir = None ->
  snd (build_result W 0 (build_call esbuildOptions (Some true))) = inr builder ->
  snd (cpy_result W 1 (cpy_call W assetsOptions)) = inr files ->
  let st0 := snd (run W (watchBuild outDir esbuildOptions assetsOptions) now init) in
  exists ext,
    trace (fs_changes W changes st0) = trace st0 ++ ext /\
    Forall (fun x => steady_effect W assetsOptions builder (snd x)) ext.
Proof.
  intros Hrm Hb Hc st0.
  assert (Hst0 : watching outDir esbuildOptions assetsOptions builder st0).
  { subst st0. rewrite run_watchBuild_from, Hrm, Hb, Hc. split; reflexivity. }
  clearbody st0. revert st0 Hst0.
  induction changes as [|[path t] rest IH]; intros st0 Hst0.
  - exists []. split; [symmetry; apply app_nil_r | constructor].
  - cbn [fs_changes]. eapply steady_extension_trans.
    + apply (fs_change_from_steady W _ _ _ _ 0 (watchers st0) path t st0 Hst0).
    + apply IH. apply fs_change_from_keeps_watching. exact Hst0.
Qed.

End OrchestrationEdges.

(** ** Facts about the entry point *)

Section EntryFacts.

Context {Plugin Json BuildResult : Type}.
Implicit Types (ts : @TsHost Json) (P : @Process Plugin).
Implicit Types (W : @World Plugin BuildResult) (config : @Config Plugin).

Ltac entry_in_trace H :=
  cbn [In trace snd fst app record start_op init] in H;
  repeat (destruct H as [H|H]; [try discriminate H|]);
  try contradiction.

(** When the user configuration cannot be loaded, or the compiler
    configuration is not found, the process prints that error and exits with
    code 1 without having deleted, built, copied or watched anything. *)
Theorem entry_fails_before_touching_anything ts P W :
  let path := path_resolve P (cwd ts) (argv_config P ||! "etsc.config.js")%js in
  (forall t0 e,
     readUserConfig P path = (t0, inl e) ->
     entry ts P W = ({| printed := [e]; exit_code := Some 1 |}, init)) /\
  (forall t0 config,
     readUserConfig P path = (t0, inr config) ->
     (forall f, ~ located ts (tsConfigFile config) f) ->
     entry ts P W
     = ({| printed := ["tsconfig.json not found in the current directory! "
                       ++ cwd ts]%string;
           exit_code := Some 1 |}, init)).
Proof.
  intros path. split.
  - intros t0 e Hread. unfold entry, main. fold path. rewrite Hread. reflexivity.
  - intros t0 config Hread Hno. unfold entry, main. fold path. rewrite Hread.
    unfold getBuildMetadata. rewrite (getTSConfig_not_located _ _ Hno). reflexivity.
Qed.

(** [Promise.all] fulfils exactly when both promises do. *)
Lemma Promise_all_fulfilled {A B} (pa : Promise A) (pb : Promise B) :
  (exists x, outcome (Promise_all pa pb) = inr x) <->
  (exists a, outcome pa = inr a) /\ (exists b, outcome pb = inr b).
Proof.
  unfold Promise_all.
  destruct (outcome pa) as [ea|a], (outcome pb) as [eb|b];
    try destruct (_ <=? _)%nat; cbn [outcome];
    (split; [intros [x H]; try discriminate; split; eexists; reflexivity
            |intros ([a' Ha] & [b' Hb]); try discriminate; eexists; reflexivity]).
Qed.

(** In one-shot mode the process ends without an exit call exactly when
    the deletion, the build and the copy all succeed, and with code 1
    otherwise.  The [Built in] timer is started first and is closed exactly
    on success; no watcher is ever created. *)
Theorem one_shot_exit_code ts P W t0 config m :
  readUserConfig P (path_resolve P (cwd ts) (argv_config P ||! "etsc.config.js")%js)
  = (t0, inr config) ->
  truthy (watch config) = false ->
  getBuildMetadata ts config = inr m ->
  let rb := build_result W 0 (build_call (esbuildOptions m) None) in
  let rc := cpy_result W 1 (cpy_call W (assetsOptions m)) in
  let r := entry ts P W in
  (exit_code (fst r) = None <->
   rimraf_sync W (bm_outDir m) = None /\
   (exists b, snd rb = inr b) /\ (exists files, snd rc = inr files)) /\
  (exit_code (fst r) <> None -> exit_code (fst r) = Some 1) /\
  ((exists t, In (t, EtimeEnd "Built in") (trace (snd r))) <->
   exit_code (fst r) = None) /\
  hd_error (trace (snd r)) = Some (t0, Etime "Built in") /\
  watchers (snd r) = [] /\ listeners (snd r) = [].
Proof.
  intros Hread Hwatch Hm rb rc r. subst r.
  unfold entry, main. rewrite Hread, Hm, Hwatch.
  destruct (rimraf_sync W (bm_outDir m)) as [e|] eqn:Hrm.
  - rewrite (run_normalBuild_rimraf_throws _ _ _ _ _ _ _ Hrm).
    cbn [fst snd exit_code trace watchers listeners record init app hd_error].
    split; [split; [discriminate | intros (H & _); discriminate]|].
    split; [reflexivity|].
    split; [split; [intros [t H]; entry_in_trace H | discriminate]|].
    repeat split.
  - rewrite (run_normalBuild _ _ _ _ _ _ Hrm).
    cbn [started record init]. fold rb rc.
    set (pall := Promise_all (promise_of t0 rb) (promise_of t0 rc)).
    assert (Hall : (exists x, outcome pall = inr x) <->
                   (exists b, snd rb = inr b) /\ (exists files, snd rc = inr files))
      by apply Promise_all_fulfilled.
    destruct (outcome pall) as [e|result] eqn:Hout;
      cbn [fst snd exit_code trace watchers listeners record start_op init app
           hd_error].
    + split.
      { split; [discriminate|]. intros (_ & Hb & Hc).
        destruct (proj2 Hall (conj Hb Hc)) as [x Hx]. discriminate. }
      split; [reflexivity|].
      split; [split; [intros [t H]; entry_in_trace H | discriminate]|].
      repeat split.
    + split.
      { split; [|reflexivity]. intros _. split; [reflexivity|].
        apply Hall. eexists. reflexivity. }
      split; [intros H; contradiction H; reflexivity|].
      split.
      { split; [reflexivity|]. intros _. exists (settles_at pall).
        do 4 right. left. reflexivity. }
      repeat split.
Qed.

(** In watch mode the process goes on without an exit call exactly when
    the deletion, the initial build and the initial copy all succeed, and is
    then watching; otherwise it exits with code 1.  Every build it starts is
    incremental and the [Built in] timer of the one-shot mode is never
    started. *)
Theorem watch_mode_exit_code ts P W t0 config m :
  readUserConfig P (path_resolve P (cwd ts) (argv_config P ||! "etsc.config.js")%js)
  = (t0, inr config) ->
  truthy (watch config) = true ->
  getBuildMetadata ts config = inr m ->
  let rb := build_result W 0 (build_call (esbuildOptions m) (Some true)) in
  let rc := cpy_result W 1 (cpy_call W (assetsOptions m)) in
  let r := entry ts P W in
  (exit_code (fst r) = None <->
   rimraf_sync W (bm_outDir m) = None /\
   (exists b, snd rb = inr b) /\ (exists files, snd rc = inr files)) /\
  (exit_code (fst r) <> None -> exit_code (fst r) = Some 1) /\
  (exit_code (fst r) = None ->
   exists builder,
     snd rb = inr builder /\
     watching (bm_outDir m) (esbuildOptions m) (assetsOptions m) builder (snd r)) /\
  (forall t c, In (t, Ebuild c) (trace (snd r)) -> bc_incremental c = Some true) /\
  (forall t label, In (t, Etime label) (trace (snd r)) -> label <> "Built in").
Proof.
  intros Hread Hwatch Hm rb rc r. subst r.
  unfold entry, main. rewrite Hread, Hm, Hwatch.
  rewrite run_watchBuild_from. fold rb rc.
  destruct (rimraf_sync W (bm_outDir m)) as [e|];
    [|destruct (snd rb) as [e|builder]; [|destruct (snd rc) as [e|files]]];
    cbn [fst snd exit_code trace app].
  - split; [split; [discriminate | intros (H & _); discriminate]|].
    split; [reflexivity|]. split; [discriminate|].
    split; intros t x H; entry_in_trace H.
  - split; [split; [discriminate | intros (_ & [b H] & _); discriminate]|].
    split; [reflexivity|]. split; [discriminate|].
    split; intros t x H; entry_in_trace H.
    + injection H as _ <-. reflexivity.
    + injection H as _ <-. discriminate.
  - split; [split; [discriminate | intros (_ & _ & [f H]); discriminate]|].
    split; [reflexivity|]. split; [discriminate|].
    split; intros t x H; entry_in_trace H.
    + injection H as _ <-. reflexivity.
    + injection H as _ <-. discriminate.
    + injection H as _ <-. discriminate.
  - split.
    { split; [|reflexivity]. intros _. repeat split; eexists; reflexivity. }
    split; [intros H; contradiction H; reflexivity|].
    split.
    { intros _. exists builder. split; [reflexivity|]. split; reflexivity. }
    split; intros t x H; entry_in_trace H.
    + injection H as _ <-. reflexivity.
    + injection H as _ <-. discriminate.
    + injection H as _ <-. discriminate.
Qed.

End EntryFacts.

(** ** The further facts at concrete inputs *)

(** Only [tsconfig.json] exists and the user names the empty string: the
    default name is not substituted and the lookup fails. *)
Lemma getBuildMetadata_throws_iff_not_located_witness :
  (forall f, ~ located Scenario.host_default_only
                (tsConfigFile Scenario.config_empty_tsConfigFile) f) /\
  getBuildMetadata Scenario.host_default_only Scenario.config_empty_tsConfigFile
  = inl "tsconfig.json not found in the current directory! /app".
Proof.
  assert (Hno : forall f, ~ located Scenario.host_default_only
                  (tsConfigFile Scenario.config_empty_tsConfigFile) f).
  { intros f [H _]. discriminate H. }
  split; [exact Hno|].
  destruct (getBuildMetadata_throws_iff_not_located Scenario.host_default_only
              Scenario.config_empty_tsConfigFile) as [Hmsg [_ Hthrows]].
  destruct (Hthrows Hno) as [e He].
  rewrite He. f_equal. exact (Hmsg e He).
Defined.

Lemma getBuildMetadata_coherent_witness :
  exists m,
    getBuildMetadata (Sample.host Sample.tsconfig_build) Scenario.config_empty_objects
    = inr m /\
    bo_outdir (esbuildOptions m) = "out" /\
    ao_outDir (assetsOptions m) = "out" /\
    bo_tsconfig (esbuildOptions m) = "/app/tsconfig.json" /\
    bm_outDir m <> "".
Proof.
  eexists. split; [reflexivity|].
  split; [reflexivity|]. split; [reflexivity|]. split; [reflexivity|].
  apply (getBuildMetadata_coherent (Sample.host Sample.tsconfig_build)
           Scenario.config_empty_objects).
  reflexivity.
Defined.

Lemma normalBuild_stops_when_deletion_throws_witness :
  let W := Scenario.world_rimraf_throws in
  rimraf_sync W "dist" = Some "EPERM: operation not permitted" /\
  let r := run W (normalBuild "dist" Sample.options_dist
                    Sample.assets_src_dist) 0 init in
  fst r = (0, inl "EPERM: operation not permitted") /\
  trace (snd r) = [(0, Erimraf "dist")] /\
  started (snd r) = 0.
Proof.
  split; [reflexivity|].
  destruct (normalBuild_stops_when_deletion_throws Scenario.world_rimraf_throws
              "dist" Sample.options_dist Sample.assets_src_dist 0 init
              "EPERM: operation not permitted" eq_refl) as (Hr & Ht & Hs).
  split; [exact Hr|]. split; [exact Ht | exact Hs].
Defined.

(** The initial copy fails: [watchBuild] rejects and no watcher exists. *)
Lemma watchBuild_watches_only_after_success_witness :
  let r := run Sample.world_copy_fails_first
             (watchBuild "dist" Sample.options_dist Sample.assets_src_dist) 0 init in
  snd (fst r) = inl "EACCES: permission denied" /\
  watchers (snd r) = [] /\ listeners (snd r) = [].
Proof.
  split; [reflexivity|].
  destruct (watchBuild_watches_only_after_success Sample.world_copy_fails_first
              "dist" Sample.options_dist Sample.assets_src_dist 0) as [_ H].
  destruct (H "EACCES: permission denied" eq_refl) as (Hw & Hl & _).
  split; [exact Hw | exact Hl].
Defined.

(** A change of [a.ts] while every rebuild fails: one rebuild of handle 0,
    no closing timer line, one unhandled rejection. *)
Lemma code_change_rebuilds_once_witness :
  let st := Scenario.started_watching in
  let st' := emit Scenario.world_rebuild_fails 1 "change" ["a.ts"] 10 st in
  watching "dist" Sample.options_dist Sample.assets_src_dist 0 st /\
  trace st' = trace st ++ [(10, Elog (LogParams ["a.ts"]));
                           (10, Etime "Rebuilt in");
                           (10, Erebuild 0)] /\
  unhandled st' = [(12, "Build failed with 1 error")].
Proof.
  assert (Hst : watching "dist" Sample.options_dist Sample.assets_src_dist 0
                  Scenario.started_watching) by (split; reflexivity).
  split; [exact Hst|].
  destruct (code_change_rebuilds_once Scenario.world_rebuild_fails "dist"
              Sample.options_dist Sample.assets_src_dist 0 ["a.ts"] 10
              Scenario.started_watching Hst) as [Ht Hu].
  split; [exact Ht | exact Hu].
Defined.

(** A change of an asset while everything succeeds: one full copy, timed. *)
Lemma asset_change_copies_everything_once_witness :
  let st := Scenario.started_watching in
  let st' := emit Sample.world_ok 0 "change" ["src/logo.png"] 10 st in
  watching "dist" Sample.options_dist Sample.assets_src_dist 0 st /\
  trace st'
  = trace st
    ++ [(10, Elog (LogParams ["src/logo.png"]));
        (10, Etime "Assets copied in");
        (10, Ecpy {| cpy_patterns := ["**"; "!**/*.{ts,js,tsx,jsx}"];
                     cpy_destination := "../dist";
                     cpy_cwd := "src";
                     cpy_parents := true |});
        (11, EtimeEnd "Assets copied in")] /\
  unhandled st' = [].
Proof.
  assert (Hst : watching "dist" Sample.options_dist Sample.assets_src_dist 0
                  Scenario.started_watching) by (split; reflexivity).
  split; [exact Hst|].
  destruct (asset_change_copies_everything_once Sample.world_ok "dist"
              Sample.options_dist Sample.assets_src_dist 0 ["src/logo.png"] 10
              Scenario.started_watching Hst) as [Ht Hu].
  split; [exact Ht | exact Hu].
Defined.

(** A file is added: nothing runs.  An error is emitted: it is thrown. *)
Lemma other_events_run_nothing_witness :
  watching "dist" Sample.options_dist Sample.assets_src_dist 0
    Scenario.started_watching /\
  emitter_emit Sample.world_ok 0 "add" ["src/new.png"] 10 Scenario.started_watching
  = inr Scenario.started_watching /\
  emitter_emit Sample.world_ok 0 "error" ["EMFILE: too many open files"] 10
    Scenario.started_watching
  = inl "EMFILE: too many open files".
Proof.
  assert (Hst : watching "dist" Sample.options_dist Sample.assets_src_dist 0
                  Scenario.started_watching) by (split; reflexivity).
  split; [exact Hst|].
  destruct (other_events_run_nothing Sample.world_ok "dist" Sample.options_dist
              Sample.assets_src_dist 0 0 ["src/new.png"] 10
              Scenario.started_watching Hst) as [Hother _].
  destruct (other_events_run_nothing Sample.world_ok "dist" Sample.options_dist
              Sample.assets_src_dist 0 0 ["EMFILE: too many open files"] 10
              Scenario.started_watching Hst) as [_ Herror].
  split.
  - apply Hother; discriminate.
  - exact (Herror "EMFILE: too many open files" []).
Defined.

(** Every rebuild fails and the runtime ends the process at an unhandled
    rejection: a change of an entry point at 10 is rebuilt, the rejection at
    12 ends the process, the change at 20 is not handled; the subscriptions
    are intact throughout. *)
Lemma subscriptions_survive_changes_witness :
  let W := Resolved.world_rebuild_fails in
  let changes := [("/app/src/a.ts", 10); ("src/logo.png", 20)] in
  let options := Resolved.options_dist in
  let st := watch_loop EndProcess W changes
              (snd (run W (watchBuild "dist" options Sample.assets_src_dist) 0 init)) in
  rimraf_sync W "dist" = None /\
  watching "dist" options Sample.assets_src_dist 0 st /\
  unhandled st = [(12, "Build failed with 1 error")] /\
  occurrences is_cpy (trace st) = 1.
Proof.
  cbv zeta. split; [reflexivity|]. split; [|split; vm_compute; reflexivity].
  exact (subscriptions_survive_changes EndProcess Resolved.world_rebuild_fails
           "dist" Resolved.options_dist Sample.assets_src_dist 0 0
           ["../dist/logo.png"] [("/app/src/a.ts", 10); ("src/logo.png", 20)]
           eq_refl eq_refl eq_refl).
Defined.

Lemma watch_loop_only_rebuilds_and_copies_witness :
  let W := Scenario.world_rebuild_fails in
  let st0 := snd (run W (watchBuild "dist" Sample.options_dist
                           Sample.assets_src_dist) 0 init) in
  rimraf_sync W "dist" = None /\
  exists ext,
    trace (fs_changes W [("a.ts", 10); ("src/logo.png", 20)] st0) = trace st0 ++ ext /\
    Forall (fun x => steady_effect W Sample.assets_src_dist 0 (snd x)) ext.
Proof.
  split; [reflexivity|].
  apply (watch_loop_only_rebuilds_and_copies Scenario.world_rebuild_fails "dist"
           Sample.options_dist Sample.assets_src_dist 0 0 ["../dist/logo.png"]
           [("a.ts", 10); ("src/logo.png", 20)]); reflexivity.
Defined.

(** The configuration module cannot be loaded: exit code 1, nothing done. *)
Lemma entry_fails_before_touching_anything_witness :
  readUserConfig Scenario.process_unreadable "/app/etsc.config.js"
  = (2, inl "Cannot find module /app/etsc.config.js") /\
  entry (Sample.host Sample.tsconfig_build) Scenario.process_unreadable Sample.world_ok
  = ({| printed := ["Cannot find module /app/etsc.config.js"];
        exit_code := Some 1 |}, init).
Proof.
  split; [reflexivity|].
  destruct (entry_fails_before_touching_anything (Sample.host Sample.tsconfig_build)
              Scenario.process_unreadable Sample.world_ok) as [H _].
  exact (H 2 "Cannot find module /app/etsc.config.js" eq_refl).
Defined.

(** One-shot mode with a failing copy: exit code 1, the timer left open. *)
Lemma one_shot_exit_code_witness :
  let r := entry (Sample.host Sample.tsconfig_build)
             (Scenario.process_of Scenario.config_one_shot)
             Sample.world_copy_fails_first in
  truthy (watch Scenario.config_one_shot) = false /\
  exit_code (fst r) = Some 1 /\
  hd_error (trace (snd r)) = Some (2, Etime "Built in") /\
  watchers (snd r) = [].
Proof.
  split; [reflexivity|].
  destruct (one_shot_exit_code (Sample.host Sample.tsconfig_build)
              (Scenario.process_of Scenario.config_one_shot)
              Sample.world_copy_fails_first 2 Scenario.config_one_shot _
              eq_refl eq_refl eq_refl) as (_ & Hcode & _ & Hhd & Hw & _).
  split; [apply Hcode; discriminate|]. split; [exact Hhd | exact Hw].
Defined.

(** Watch mode with everything succeeding: no exit, watching. *)
Lemma watch_mode_exit_code_witness :
  let r := entry (Sample.host Sample.tsconfig_build)
             (Scenario.process_of Scenario.config_watch) Sample.world_ok in
  truthy (watch Scenario.config_watch) = true /\
  exit_code (fst r) = None /\
  map w_ignored (watchers (snd r)) = ["build/**"; "build/**"].
Proof.
  split; [reflexivity|].
  destruct (watch_mode_exit_code (Sample.host Sample.tsconfig_build)
              (Scenario.process_of Scenario.config_watch) Sample.world_ok
              2 Scenario.config_watch _ eq_refl eq_refl eq_refl)
    as (Hcode & _ & Hwatching & _).
  assert (Hnone : exit_code (fst (entry (Sample.host Sample.tsconfig_build)
                    (Scenario.process_of Scenario.config_watch) Sample.world_ok))
                  = None).
  { apply Hcode. repeat split; eexists; reflexivity. }
  split; [exact Hnone|].
  destruct (Hwatching Hnone) as (builder & _ & Hw & _).
  rewrite Hw. reflexivity.
Defined.

(** C8.  The claim fails on the code when the output directory comes from
    the compiler configuration, where TypeScript has made it an absolute
    path.  Both watchers are then given ["/app/dist/**"]; the asset watcher
    watches ["**"] and reports ["dist/data.json"] as it watches it, relative
    to the working directory, which the pattern does not match: the change
    under the output directory is observed and a full copy runs.  With the
    relative ["dist"] of a user configuration the same change is ignored. *)
Theorem output_directory_observed_when_outDir_is_absolute :
  let W := Resolved.world in
  let from_tsconfig :=
    snd (entry Resolved.host (Scenario.process_of Scenario.config_watch) W) in
  let from_user :=
    snd (entry Resolved.host (Scenario.process_of Resolved.config_watch_dist) W) in
  watchers from_tsconfig
  = [{| w_paths := ["**"; "!**/*.{ts,js,tsx,jsx}"]; w_ignored := "/app/dist/**" |};
     {| w_paths := ["/app/src/a.ts"; "/app/src/b.ts"]; w_ignored := "/app/dist/**" |}] /\
  trace (fs_change W "dist/data.json" 10 from_tsconfig)
  = trace from_tsconfig
    ++ [(10, Elog (LogParams ["dist/data.json"]));
        (10, Etime "Assets copied in");
        (10, Ecpy {| cpy_patterns := ["**"; "!**/*.{ts,js,tsx,jsx}"];
                     cpy_destination := "../dist";
                     cpy_cwd := "src";
                     cpy_parents := true |});
        (11, EtimeEnd "Assets copied in")] /\
  watchers from_user
  = [{| w_paths := ["**"; "!**/*.{ts,js,tsx,jsx}"]; w_ignored := "dist/**" |};
     {| w_paths := ["/app/src/a.ts"; "/app/src/b.ts"]; w_ignored := "dist/**" |}] /\
  fs_change W "dist/data.json" 10 from_user = from_user.
Proof.
  cbv zeta. split; [vm_compute; reflexivity|]. split; [vm_compute; reflexivity|].
  split; vm_compute; reflexivity.
Qed.
